(** * next-firebase-auth: the configuration module (src/config.ts)

    A shallow embedding of [validateConfig], [replacePrivateValues],
    [setConfig] and [getConfig], and the properties of the module's
    specification proved about it.

    JavaScript objects are finite maps from property names to values
    (stdpp's [gmap], which has extensional equality: the order in which
    properties were written is not part of an object here).  Numbers are
    integers: the only number the module inspects is a cookie age in
    milliseconds.  Functions are opaque and known by their name. *)

From stdpp Require Import gmap strings list fin_maps pretty.
From Stdlib Require Import ZArith Ascii.

Set Warnings "-register-all".

Open Scope Z_scope.
Open Scope string_scope.

(** ** JavaScript values *)

Inductive JsVal : Type :=
  | JUndefined
  | JNull
  | JBool (b : bool)
  | JNum (n : Z)
  | JStr (s : string)
  | JFun (name : string)
  | JArr (items : list JsVal)
  | JObj (props : gmap string JsVal).

(** ToBoolean, as used by [if], [!], [&&] and [||]. *)
Definition truthy (v : JsVal) : bool :=
  match v with
  | JUndefined | JNull => false
  | JBool b => b
  | JNum n => negb (n =? 0)%Z
  | JStr s => negb (String.eqb s EmptyString)
  | JFun _ | JArr _ | JObj _ => true
  end.

(** The [typeof] operator. *)
Definition typeof (v : JsVal) : string :=
  match v with
  | JUndefined => "undefined"
  | JNull => "object"
  | JBool _ => "boolean"
  | JNum _ => "number"
  | JStr _ => "string"
  | JFun _ => "function"
  | JArr _ | JObj _ => "object"
  end.

Definition is_undefined (v : JsVal) : bool :=
  match v with JUndefined => true | _ => false end.

(** [o.k] on an object held as a map: a missing property reads as
    [undefined]. *)
Definition field (o : gmap string JsVal) (k : string) : JsVal :=
  default JUndefined (o !! k).

(** [v.k] on a value that is neither [undefined] nor [null] (every read
    from a value that may be one of those is guarded in the source, or
    raises a TypeError modelled at the place of the read).  The names this
    module reads ([apiKey], [credential], [privateKey], [keys], [name],
    [maxAge]) are never an index nor ["length"]; of these a function
    carries its own ["name"], and an array inherits the method ["keys"]
    from its prototype. *)
Definition prop (v : JsVal) (k : string) : JsVal :=
  match v with
  | JObj m => field m k
  | JFun nm => if String.eqb k "name" then JStr nm else JUndefined
  | JArr _ => if String.eqb k "keys" then JFun "keys" else JUndefined
  | _ => JUndefined
  end.

(** The characters of a string, each as a one-character string value. *)
Fixpoint chars (s : string) : list JsVal :=
  match s with
  | EmptyString => []
  | String c r => JStr (String c EmptyString) :: chars r
  end.

Definition indexed (l : list JsVal) : gmap string JsVal :=
  list_to_map (imap (λ i v, (pretty i, v)) l).

(** The own enumerable properties copied by an object spread [...v]:
    those of an object, the indices of an array or of a string, and
    nothing for the other values. *)
Definition own_props (v : JsVal) : gmap string JsVal :=
  match v with
  | JObj m => m
  | JArr l => indexed l
  | JStr s => indexed (chars s)
  | _ => ∅
  end.

(** [{ ...target, ...src }]: properties of [src] win. *)
Definition spread (target : gmap string JsVal) (src : JsVal)
  : gmap string JsVal :=
  own_props src ∪ target.

(** [a || b] and [a && b]. *)
Definition js_or (a b : JsVal) : JsVal := if truthy a then a else b.

Definition js_and (a b : JsVal) : JsVal := if truthy a then b else a.

(** ToNumber on the operands the model converts; [None] is NaN, and also
    stands for strings and objects, whose conversion is not modelled (the
    merged configuration declares the cookie age a number). *)
Definition toNumber (v : JsVal) : option Z :=
  match v with
  | JNum n => Some n
  | JBool b => Some (if b then 1 else 0)
  | JNull => Some 0
  | _ => None
  end.

(** [v > c] for a number [c]: false when [v] converts to NaN. *)
Definition js_gt (v : JsVal) (c : Z) : bool :=
  match toNumber v with
  | Some n => (c <? n)%Z
  | None => false
  end.

(** [s !== v] for a string [s]. *)
Definition str_strict_ne (s : string) (v : JsVal) : bool :=
  match v with
  | JStr t => negb (String.eqb s t)
  | _ => true
  end.

(** ** Errors and results *)

Inductive JsError : Type :=
  | TypeError (msg : string)
  | Error (msg : string).

Inductive Res (A : Type) : Type :=
  | Ok (a : A)
  | Throw (e : JsError).
Arguments Ok {A} a.
Arguments Throw {A} e.

(** Sequencing: a raised error skips what follows.  This is stdpp's
    [x ← r; k] notation. *)
#[global] Instance res_bind : MBind Res := λ A B k r,
  match r with
  | Ok a => k a
  | Throw e => Throw e
  end.

(** [v.startsWith(p)]: the method of strings; any other value that got
    past the truthiness guard has no such method. *)
Definition startsWith (v : JsVal) (p : string) : Res bool :=
  match v with
  | JStr s => Ok (String.prefix p s)
  | _ => Throw (TypeError "startsWith is not a function")
  end.

(** [Array.prototype.join]. *)
Fixpoint join (sep : string) (l : list string) : string :=
  match l with
  | [] => EmptyString
  | [x] => x
  | x :: r => x ++ sep ++ join sep r
  end.

(** ** The module *)

(** What the module reads from its surroundings: [isClientSide()] and
    [process.env.FIREBASE_AUTH_EMULATOR_HOST]. *)
Record Env : Type := mkEnv {
  isClientSide : bool;
  FIREBASE_AUTH_EMULATOR_HOST : option string
}.

Definition TWO_WEEKS_IN_MS : Z := 14 * 60 * 60 * 24 * 1000.

Record ValidationResult : Type := mkValidation {
  isValid : bool;
  errors : list string
}.

(** The double-quote character, and a name between double quotes. *)
Definition dq : string := String (Ascii.ascii_of_nat 34) EmptyString.
Definition quoted (s : string) : string := dq ++ s ++ dq.

(** The messages pushed by [validateConfig], in the order of the source. *)
Module Msg.
Definition withHandler (setting : string) : string :=
  "The " ++ quoted setting ++
  " setting should not be set if you are using a " ++
  quoted "tokenChangedHandler" ++ ".".
Definition loginWithHandler : string := withHandler "loginAPIEndpoint".
Definition logoutWithHandler : string := withHandler "logoutAPIEndpoint".
Definition onLoginErrWithHandler : string :=
  withHandler "onLoginRequestError".
Definition onLogoutErrWithHandler : string :=
  withHandler "onLogoutRequestError".
Definition apiKeyRequired : string :=
  "The " ++ quoted "firebaseClientInitConfig.apiKey" ++
  " value is required.".
Definition emulatorPrefix : string :=
  "The firebaseAuthEmulatorHost should be set without a prefix (e.g., localhost:9099)".
Definition mustBeFunction (setting : string) : string :=
  "Invalid next-firebase-auth options: The " ++ quoted setting ++
  " setting must be a function.".
Definition endpointRequired (setting : string) : string :=
  "The " ++ quoted setting ++ " setting is required.".
Definition loginRequired : string := endpointRequired "loginAPIEndpoint".
Definition logoutRequired : string := endpointRequired "logoutAPIEndpoint".
Definition privateKeyOnClient : string :=
  "The " ++ quoted "firebaseAdminInitConfig" ++
  " private key setting should not be available on the client side.".
Definition cookieKeysOnClient : string :=
  "The " ++ quoted "cookies.keys" ++
  " setting should not be available on the client side.".
Definition cookieNameRequired : string :=
  "The " ++ quoted "cookies.name" ++
  " setting is required on the server side.".
Definition emulatorEnvUnset : string :=
  "The " ++ quoted "FIREBASE_AUTH_EMULATOR_HOST" ++
  " environment variable should be set if you are using the " ++
  quoted "firebaseAuthEmulatorHost" ++ " option".
Definition emulatorEnvMismatch : string :=
  "The " ++ quoted "FIREBASE_AUTH_EMULATOR_HOST" ++
  " environment variable should be the same as the host set in the config".
Definition maxAgeCeiling : string :=
  "The " ++ quoted "cookies.maxAge" ++
  " setting must be less than two weeks (" ++ pretty TWO_WEEKS_IN_MS ++
  " ms).".
Definition invalidPrefix : string := "Invalid next-firebase-auth options: ".
Definition notInitialized : string :=
  "next-firebase-auth must be initialized before rendering.".
Definition logLabel : string := "[init] Setting config with provided value:".
End Msg.

(** [errorMessages.push(msg)], and the same under a condition. *)
Definition push (msg : string) (l : list string) : list string :=
  (l ++ [msg])%list.

Definition push_if (c : bool) (msg : string) (l : list string) : list string :=
  if c then push msg l else l.

(** [funcOrUndefArr.indexOf(typeof v) < 0]. *)
Definition notFuncOrUndef (v : JsVal) : bool :=
  negb (bool_decide (typeof v ∈ ["function"; "undefined"])).

(** The value of [areCookieKeysDefined], taken as a condition.  Every
    array has a [filter] method, so the inner conditional takes its first
    branch. *)
Definition areCookieKeysDefined (keys : JsVal) : bool :=
  match keys with
  | JArr l =>
      negb (length l =? 0)%nat &&
      negb (length (filter (λ item, is_undefined item = false) l) =? 0)%nat
  | _ => truthy keys
  end.

(** [const { keys } = mergedConfig.cookies]: destructuring [undefined] or
    [null] raises. *)
Definition cookiesOf (mergedConfig : gmap string JsVal) : Res JsVal :=
  match field mergedConfig "cookies" with
  | JUndefined | JNull =>
      Throw (TypeError "Cannot destructure property 'keys'")
  | c => Ok c
  end.

(** [validateConfig] runs its checks one after the other on the list
    [errorMessages]; each block of the source is a function from the list
    before it to the list after it. *)

(** Lines 14-35: a [tokenChangedHandler] excludes the login and logout
    settings. *)
Definition checkTokenChangedHandler (mergedConfig : gmap string JsVal)
  (errorMessages : list string) : list string :=
  if truthy (field mergedConfig "tokenChangedHandler") then
    let errorMessages :=
      push_if (truthy (field mergedConfig "loginAPIEndpoint"))
        Msg.loginWithHandler errorMessages in
    let errorMessages :=
      push_if (truthy (field mergedConfig "logoutAPIEndpoint"))
        Msg.logoutWithHandler errorMessages in
    let errorMessages :=
      push_if (truthy (field mergedConfig "onLoginRequestError"))
        Msg.onLoginErrWithHandler errorMessages in
    push_if (truthy (field mergedConfig "onLogoutRequestError"))
      Msg.onLogoutErrWithHandler errorMessages
  else errorMessages.

(** Lines 39-48: the public API key. *)
Definition checkApiKey (mergedConfig : gmap string JsVal)
  (errorMessages : list string) : list string :=
  push_if
    (negb (truthy (field mergedConfig "firebaseClientInitConfig") &&
           truthy (prop (field mergedConfig "firebaseClientInitConfig")
                     "apiKey")))
    Msg.apiKeyRequired errorMessages.

(** Lines 51-58: the emulator host carries no prefix.  The method call is
    reached only when the host is truthy. *)
Definition checkEmulatorHost (mergedConfig : gmap string JsVal)
  (errorMessages : list string) : Res (list string) :=
  hasPrefix ←
    (if truthy (field mergedConfig "firebaseAuthEmulatorHost")
     then startsWith (field mergedConfig "firebaseAuthEmulatorHost") "http"
     else Ok false);
  Ok (push_if hasPrefix Msg.emulatorPrefix errorMessages).

(** Lines 61-81: the error handlers are functions or undefined. *)
Definition checkErrorHandlers (mergedConfig : gmap string JsVal)
  (errorMessages : list string) : list string :=
  let errorMessages :=
    push_if (notFuncOrUndef (field mergedConfig "onVerifyTokenError"))
      (Msg.mustBeFunction "onVerifyTokenError") errorMessages in
  let errorMessages :=
    push_if (notFuncOrUndef (field mergedConfig "onTokenRefreshError"))
      (Msg.mustBeFunction "onTokenRefreshError") errorMessages in
  let errorMessages :=
    push_if (notFuncOrUndef (field mergedConfig "onLoginRequestError"))
      (Msg.mustBeFunction "onLoginRequestError") errorMessages in
  push_if (notFuncOrUndef (field mergedConfig "onLogoutRequestError"))
    (Msg.mustBeFunction "onLogoutRequestError") errorMessages.

(** Lines 96-118: the checks made in the browser. *)
Definition checkClientSide (mergedConfig : gmap string JsVal)
  (keysDefined : bool) (errorMessages : list string) : list string :=
  let errorMessages :=
    if negb (truthy (field mergedConfig "tokenChangedHandler")) then
      let errorMessages :=
        push_if (negb (truthy (field mergedConfig "loginAPIEndpoint")))
          Msg.loginRequired errorMessages in
      push_if (negb (truthy (field mergedConfig "logoutAPIEndpoint")))
        Msg.logoutRequired errorMessages
    else errorMessages in
  let errorMessages :=
    push_if
      (truthy (field mergedConfig "firebaseAdminInitConfig") &&
       truthy (prop (field mergedConfig "firebaseAdminInitConfig")
                 "credential") &&
       truthy (prop (prop (field mergedConfig "firebaseAdminInitConfig")
                       "credential") "privateKey"))
      Msg.privateKeyOnClient errorMessages in
  push_if keysDefined Msg.cookieKeysOnClient errorMessages.

(** Lines 134-147: the emulator host of the configuration against the
    environment variable. *)
Definition checkEmulatorEnv (E : Env) (mergedConfig : gmap string JsVal)
  (errorMessages : list string) : list string :=
  if truthy (field mergedConfig "firebaseAuthEmulatorHost") then
    match FIREBASE_AUTH_EMULATOR_HOST E with
    | None => push Msg.emulatorEnvUnset errorMessages
    | Some v =>
        if negb (truthy (JStr v)) then
          push Msg.emulatorEnvUnset errorMessages
        else
          push_if
            (str_strict_ne v (field mergedConfig "firebaseAuthEmulatorHost"))
            Msg.emulatorEnvMismatch errorMessages
    end
  else errorMessages.

(** Lines 154-161: the age of the cookie. *)
Definition checkMaxAge (cookies : JsVal) (errorMessages : list string)
  : list string :=
  push_if
    (negb (truthy (prop cookies "maxAge")) ||
     js_gt (prop cookies "maxAge") TWO_WEEKS_IN_MS)
    Msg.maxAgeCeiling errorMessages.

(** Lines 126-161: the checks made on the server. *)
Definition checkServerSide (E : Env) (mergedConfig : gmap string JsVal)
  (cookies : JsVal) (errorMessages : list string) : list string :=
  let errorMessages :=
    push_if (negb (truthy (prop cookies "name")))
      Msg.cookieNameRequired errorMessages in
  let errorMessages := checkEmulatorEnv E mergedConfig errorMessages in
  checkMaxAge cookies errorMessages.

Definition validateConfig (E : Env) (mergedConfig : gmap string JsVal)
  : Res ValidationResult :=
  let errorMessages : list string := [] in
  let errorMessages := checkTokenChangedHandler mergedConfig errorMessages in
  let errorMessages := checkApiKey mergedConfig errorMessages in
  errorMessages ← checkEmulatorHost mergedConfig errorMessages;
  let errorMessages := checkErrorHandlers mergedConfig errorMessages in
  cookies ← cookiesOf mergedConfig;
  let keys := prop cookies "keys" in
  let errorMessages :=
    if isClientSide E then
      checkClientSide mergedConfig (areCookieKeysDefined keys) errorMessages
    else
      checkServerSide E mergedConfig cookies errorMessages in
  Ok {| isValid := (length errorMessages =? 0)%nat;
        errors := errorMessages |}.

(** The object handed to the debug log in place of the user's. *)
Definition replacePrivateValues (unredactedConfig : gmap string JsVal)
  : gmap string JsVal :=
  let admin := field unredactedConfig "firebaseAdminInitConfig" in
  let credential := prop admin "credential" in
  let redactedConfig := spread ∅ (JObj unredactedConfig) in
  let redactedConfig :=
    <["cookies" :=
        JObj (<["keys" := JArr [JStr "hidden"]]>
                (spread ∅ (field unredactedConfig "cookies")))]>
      redactedConfig in
  spread redactedConfig
    (js_and admin
       (JObj {[ "firebaseAdminInitConfig" :=
          JObj (spread (spread ∅ admin)
                  (js_and credential
                     (JObj {[ "credential" :=
                        JObj (<["clientEmail" := JStr "hidden"]>
                                (<["privateKey" := JStr "hidden"]>
                                   (spread ∅ credential))) ]}))) ]})).

(** The module's state: the variable [config], [undefined] until it is
    assigned, and the calls made to the external [logDebug], oldest
    first, each with its two arguments. *)
Record State : Type := mkState {
  config : JsVal;
  debugLog : list (string * JsVal)
}.

Definition initialState : State := mkState JUndefined [].

Definition logDebug (label : string) (arg : JsVal) (st : State) : State :=
  mkState (config st) (debugLog st ++ [(label, arg)])%list.

Section WithDefaults.

(** [defaultConfig] is imported from ./configTypes. *)
Variable defaultConfig : gmap string JsVal.

(** The object literal bound to [mergedConfig] in [setConfig]. *)
Definition mergeConfig (userConfig : gmap string JsVal)
  : gmap string JsVal :=
  let cookieOptions := field userConfig "cookies" in
  let otherUserConfig := delete "cookies" userConfig in
  <["cookies" :=
      JObj (spread (spread ∅ (field defaultConfig "cookies"))
              (js_or cookieOptions (JObj ∅)))]>
    (spread (spread ∅ (JObj defaultConfig)) (JObj otherUserConfig)).

(** [setConfig]: the state after the call, and whether it returned or
    raised. *)
Definition setConfig (E : Env) (userConfig : gmap string JsVal)
  (st : State) : State * Res unit :=
  let st := logDebug Msg.logLabel (JObj (replacePrivateValues userConfig))
              st in
  let mergedConfig := mergeConfig userConfig in
  match validateConfig E mergedConfig with
  | Throw e => (st, Throw e)
  | Ok v =>
      if negb (isValid v) then
        (st, Throw (Error (Msg.invalidPrefix ++ join " " (errors v))))
      else
        (mkState (JObj mergedConfig) (debugLog st), Ok ())
  end.

Definition getConfig (st : State) : Res JsVal :=
  if negb (truthy (config st)) then Throw (Error Msg.notInitialized)
  else Ok (config st).

(** A history of [setConfig] calls, each in its own surroundings. *)
Fixpoint setConfigs (calls : list (Env * gmap string JsVal)) (st : State)
  : State :=
  match calls with
  | [] => st
  | (E, u) :: rest => setConfigs rest (fst (setConfig E u st))
  end.

End WithDefaults.


(** ** Vocabulary of the properties *)

(** How many times a message occurs in an error list. *)
Definition occurrences (msg : string) (l : list string) : nat :=
  length (filter (λ x, x = msg) l).

(** A message of [setConfig] mentions a rule's message when it contains it. *)
Definition mentions (msg part : string) : Prop :=
  ∃ pre post, msg = pre ++ part ++ post.

(** The values [validateConfig] can inspect without raising: the emulator
    host is a string when it is set, and the cookie options are there. *)
Definition hostOk (v : JsVal) : bool :=
  match v with
  | JStr _ => true
  | _ => negb (truthy v)
  end.

Definition cookiesOk (v : JsVal) : bool :=
  match v with
  | JUndefined | JNull => false
  | _ => true
  end.

Definition wellFormed (m : gmap string JsVal) : bool :=
  hostOk (field m "firebaseAuthEmulatorHost") &&
  cookiesOk (field m "cookies").

(** Whether the [startsWith('http')] test of line 53 succeeds. *)
Definition hostHasPrefix (v : JsVal) : bool :=
  match v with
  | JStr s => String.prefix "http" s
  | _ => false
  end.

(** The messages of the checks that depend on where the code runs. *)
Definition contextMessages (E : Env) (m : gmap string JsVal) : list string :=
  if isClientSide E then
    checkClientSide m
      (areCookieKeysDefined (prop (field m "cookies") "keys")) []
  else
    (push_if (negb (truthy (prop (field m "cookies") "name")))
       Msg.cookieNameRequired [] ++
     checkEmulatorEnv E m [] ++
     checkMaxAge (field m "cookies") [])%list.

(** All the messages, check by check. *)
Definition allMessages (E : Env) (m : gmap string JsVal) : list string :=
  (checkTokenChangedHandler m [] ++
   checkApiKey m [] ++
   push_if (hostHasPrefix (field m "firebaseAuthEmulatorHost"))
     Msg.emulatorPrefix [] ++
   checkErrorHandlers m [] ++
   contextMessages E m)%list.

(** The cookie options the user supplies, key by key: none when the
    [cookies] field is missing or falsy. *)
Definition userCookies (userConfig : gmap string JsVal)
  : gmap string JsVal :=
  if truthy (field userConfig "cookies")
  then own_props (field userConfig "cookies")
  else ∅.

(** Whether a call of [setConfig] passes validation. *)
Definition accepted (defaultConfig : gmap string JsVal) (E : Env)
  (u : gmap string JsVal) : bool :=
  match validateConfig E (mergeConfig defaultConfig u) with
  | Ok v => isValid v
  | Throw _ => false
  end.

(** The merged configuration of the latest accepted call of a history,
    oldest call first. *)
Fixpoint lastAccepted (defaultConfig : gmap string JsVal)
  (calls : list (Env * gmap string JsVal)) : option (gmap string JsVal) :=
  match calls with
  | [] => None
  | (E, u) :: rest =>
      match lastAccepted defaultConfig rest with
      | Some m => Some m
      | None =>
          if accepted defaultConfig E u
          then Some (mergeConfig defaultConfig u)
          else None
      end
  end.

(** What the spreads of [replacePrivateValues] lay over the user's
    configuration. *)
Definition redactedCredential (credential : JsVal) : gmap string JsVal :=
  <["clientEmail" := JStr "hidden"]>
    (<["privateKey" := JStr "hidden"]> (own_props credential)).

Definition redactedAdmin (admin : JsVal) : gmap string JsVal :=
  own_props
    (js_and admin
       (JObj {[ "firebaseAdminInitConfig" :=
          JObj (spread (spread ∅ admin)
                  (js_and (prop admin "credential")
                     (JObj {[ "credential" :=
                        JObj (redactedCredential
                                (prop admin "credential")) ]}))) ]})).

Definition redactedCookies (cookies : JsVal) : gmap string JsVal :=
  <["keys" := JArr [JStr "hidden"]]> (own_props cookies).

(** Two user configurations that differ at most in the value of
    [cookies.keys] and, where both carry an admin credential, in that
    credential's [privateKey] and [clientEmail]. *)
Definition sameExceptSecrets (u1 u2 : gmap string JsVal) : Prop :=
  delete "cookies" (delete "firebaseAdminInitConfig" u1)
  = delete "cookies" (delete "firebaseAdminInitConfig" u2) ∧
  delete "keys" (own_props (field u1 "cookies"))
  = delete "keys" (own_props (field u2 "cookies")) ∧
  (u1 !! "firebaseAdminInitConfig" = u2 !! "firebaseAdminInitConfig" ∨
   let a1 := field u1 "firebaseAdminInitConfig" in
   let a2 := field u2 "firebaseAdminInitConfig" in
   truthy a1 = true ∧ truthy a2 = true ∧
   delete "credential" (own_props a1) = delete "credential" (own_props a2) ∧
   truthy (prop a1 "credential") = true ∧
   truthy (prop a2 "credential") = true ∧
   delete "privateKey" (delete "clientEmail"
     (own_props (prop a1 "credential")))
   = delete "privateKey" (delete "clientEmail"
       (own_props (prop a2 "credential")))).

(** Stated from the specification's words, for comparison with the test of
    the source: a host "includes a URL scheme prefix" when it starts with
    a scheme name (a letter, then letters, digits, [+], [-] or [.])
    followed by [://]. *)
Definition isSchemeChar (c : ascii) : bool :=
  let n := nat_of_ascii c in
  ((65 <=? n) && (n <=? 90) || (97 <=? n) && (n <=? 122) ||
   (48 <=? n) && (n <=? 57) || (n =? 43) || (n =? 45) || (n =? 46))%nat.

Fixpoint schemeThenSlashes (s : string) : bool :=
  match s with
  | String ":"%char (String "/"%char (String "/"%char _)) => true
  | String c r => isSchemeChar c && schemeThenSlashes r
  | EmptyString => false
  end.

Definition hasUrlSchemePrefix (s : string) : bool :=
  match s with
  | String c r =>
      let n := nat_of_ascii c in
      ((65 <=? n) && (n <=? 90) || (97 <=? n) && (n <=? 122))%nat &&
      schemeThenSlashes r
  | EmptyString => false
  end.

(** The ninth claim as the specification words it: with a host
    configured, the prefix message is there exactly when the host includes
    a URL scheme prefix. *)
Definition emulatorPrefix_iff_scheme : Prop :=
  ∀ (E : Env) (m : gmap string JsVal) (h : string) (v : ValidationResult),
    wellFormed m = true →
    field m "firebaseAuthEmulatorHost" = JStr h →
    truthy (JStr h) = true →
    validateConfig E m = Ok v →
    (0 < occurrences Msg.emulatorPrefix (errors v))%nat
    ↔ hasUrlSchemePrefix h = true.

(** The seventh claim as the specification words it: on the server, with
    a host [h] configured, an unset variable gets the first message, a
    variable set to a string other than [h] gets the second, a variable
    equal to [h] gets neither, and the two never come together. *)
Definition emulatorEnv_unset_or_different : Prop :=
  ∀ (E : Env) (m : gmap string JsVal) (h : string) (v : ValidationResult),
    isClientSide E = false →
    wellFormed m = true →
    field m "firebaseAuthEmulatorHost" = JStr h →
    truthy (JStr h) = true →
    validateConfig E m = Ok v →
    let unset := occurrences Msg.emulatorEnvUnset (errors v) in
    let mismatch := occurrences Msg.emulatorEnvMismatch (errors v) in
    match FIREBASE_AUTH_EMULATOR_HOST E with
    | None => (0 < unset)%nat
    | Some e =>
        if String.eqb e h then unset = 0%nat ∧ mismatch = 0%nat
        else (0 < mismatch)%nat
    end ∧ (unset + mismatch ≤ 1)%nat.

(** The second claim as the specification words it: every field for which
    the defaults have a value has one in the merged configuration. *)
Definition merged_fields_all_defined : Prop :=
  ∀ (defaultConfig u : gmap string JsVal) (k : string),
    field defaultConfig k ≠ JUndefined →
    field (mergeConfig defaultConfig u) k ≠ JUndefined.

(** ** Configurations on which the definitions are run *)

(** A baseline in the shape the defaults have: a value for the options
    that have one, and the cookie options. *)
Definition exampleDefaultConfig : gmap string JsVal :=
  list_to_map
    [("debug", JBool false);
     ("onVerifyTokenError", JFun "defaultOnError");
     ("onTokenRefreshError", JFun "defaultOnError");
     ("cookies",
      JObj (list_to_map
              [("httpOnly", JBool true); ("maxAge", JNum 604800000);
               ("overwrite", JBool true); ("path", JStr "/");
               ("sameSite", JStr "strict"); ("secure", JBool true);
               ("signed", JBool true)]))].

Definition adminConfig (clientEmail privateKey : string) : JsVal :=
  JObj (list_to_map
    [("credential",
      JObj (list_to_map
              [("projectId", JStr "my-project");
               ("clientEmail", JStr clientEmail);
               ("privateKey", JStr privateKey)]));
     ("databaseURL", JStr "https://my-project.firebaseio.com")]).

(** A configuration for the server, with the cookie age and the secrets
    left open. *)
Definition serverConfig (maxAge : Z) (key clientEmail privateKey : string)
  : gmap string JsVal :=
  list_to_map
    [("loginAPIEndpoint", JStr "/api/login");
     ("logoutAPIEndpoint", JStr "/api/logout");
     ("firebaseClientInitConfig",
      JObj (list_to_map [("apiKey", JStr "public-key");
                         ("projectId", JStr "my-project")]));
     ("firebaseAdminInitConfig", adminConfig clientEmail privateKey);
     ("cookies",
      JObj (list_to_map [("name", JStr "MyApp"); ("keys", JArr [JStr key]);
                         ("maxAge", JNum maxAge)]))].

Definition day : Z := 24 * 60 * 60 * 1000.

(** The server configuration with an error handler given as [undefined]. *)
Definition undefinedHandlerConfig : gmap string JsVal :=
  <["onVerifyTokenError" := JUndefined]> (serverConfig (7 * day) "k" "e" "p").

Definition onServer : Env := mkEnv false None.
Definition inBrowser : Env := mkEnv true None.

(** A configuration with a token-change callback and a login endpoint. *)
Definition handlerAndLoginConfig : gmap string JsVal :=
  list_to_map
    [("tokenChangedHandler", JFun "onTokenChanged");
     ("loginAPIEndpoint", JStr "/api/login");
     ("cookies", JObj ∅)].

(** Emulator hosts: with a scheme other than http(s), with a name that
    merely begins with the letters http, and plain. *)
Definition ftpHostConfig : gmap string JsVal :=
  {[ "firebaseAuthEmulatorHost" := JStr "ftp://localhost:9099";
     "cookies" := JObj ∅ ]}.

Definition httpdHostConfig : gmap string JsVal :=
  {[ "firebaseAuthEmulatorHost" := JStr "httpd.local:9099";
     "cookies" := JObj ∅ ]}.

Definition localhostConfig : gmap string JsVal :=
  {[ "firebaseAuthEmulatorHost" := JStr "localhost:9099";
     "cookies" := JObj ∅ ]}.

(** ** Vocabulary of the further properties *)

(** The messages in the order in which [validateConfig] can push them:
    the checks made everywhere, then those of the browser or those of the
    server. *)
Definition commonMessageOrder : list string :=
  [Msg.loginWithHandler; Msg.logoutWithHandler; Msg.onLoginErrWithHandler;
   Msg.onLogoutErrWithHandler; Msg.apiKeyRequired; Msg.emulatorPrefix;
   Msg.mustBeFunction "onVerifyTokenError";
   Msg.mustBeFunction "onTokenRefreshError";
   Msg.mustBeFunction "onLoginRequestError";
   Msg.mustBeFunction "onLogoutRequestError"].

Definition clientMessageOrder : list string :=
  (commonMessageOrder ++
   [Msg.loginRequired; Msg.logoutRequired; Msg.privateKeyOnClient;
    Msg.cookieKeysOnClient])%list.

Definition serverMessageOrder : list string :=
  (commonMessageOrder ++
   [Msg.cookieNameRequired; Msg.emulatorEnvUnset; Msg.emulatorEnvMismatch;
    Msg.maxAgeCeiling])%list.

Definition messageOrder (E : Env) : list string :=
  if isClientSide E then clientMessageOrder else serverMessageOrder.







(** The entry [setConfig] hands to [logDebug] for a user configuration. *)
Definition logEntry (u : gmap string JsVal) : string * JsVal :=
  (Msg.logLabel, JObj (replacePrivateValues u)).

(** A value that is not an object: objects that bring a [startsWith] of
    their own are outside what [startsWith] models. *)
Definition notAnObject (v : JsVal) : bool :=
  match v with
  | JObj _ => false
  | _ => true
  end.

(** A decimal digit. *)
Definition isDigit (c : ascii) : bool :=
  let n := nat_of_ascii c in ((48 <=? n) && (n <=? 57))%nat.

Definition startsWithDigit (s : string) : bool :=
  match s with
  | String c _ => isDigit c
  | EmptyString => false
  end.

(** ** Objects with their properties in order *)

(** The same values with an object held as the list of its own
    properties in the order in which JavaScript enumerates them (each key
    once). *)
Inductive OVal : Type :=
  | OUndefined
  | ONull
  | OBool (b : bool)
  | ONum (n : Z)
  | OStr (s : string)
  | OFun (name : string)
  | OArr (items : list OVal)
  | OObj (props : list (string * OVal)).

(** Forgetting the order. *)
Fixpoint erase (v : OVal) : JsVal :=
  match v with
  | OUndefined => JUndefined
  | ONull => JNull
  | OBool b => JBool b
  | ONum n => JNum n
  | OStr s => JStr s
  | OFun name => JFun name
  | OArr items => JArr (map erase items)
  | OObj props => JObj (list_to_map (map (λ '(k, x), (k, erase x)) props))
  end.

Definition eraseProps (props : list (string * OVal)) : gmap string JsVal :=
  list_to_map (map (λ '(k, x), (k, erase x)) props).

Definition otruthy (v : OVal) : bool :=
  match v with
  | OUndefined | ONull => false
  | OBool b => b
  | ONum n => negb (n =? 0)%Z
  | OStr s => negb (String.eqb s EmptyString)
  | OFun _ | OArr _ | OObj _ => true
  end.

Fixpoint olookup (props : list (string * OVal)) (k : string) : option OVal :=
  match props with
  | [] => None
  | (k', x) :: rest => if String.eqb k' k then Some x else olookup rest k
  end.

Definition ofield (props : list (string * OVal)) (k : string) : OVal :=
  default OUndefined (olookup props k).

Definition oprop (v : OVal) (k : string) : OVal :=
  match v with
  | OObj props => ofield props k
  | OFun nm => if String.eqb k "name" then OStr nm else OUndefined
  | OArr _ => if String.eqb k "keys" then OFun "keys" else OUndefined
  | _ => OUndefined
  end.

Fixpoint ochars (s : string) : list OVal :=
  match s with
  | EmptyString => []
  | String c r => OStr (String c EmptyString) :: ochars r
  end.

Definition oindexed (l : list OVal) : list (string * OVal) :=
  imap (λ i v, (pretty i, v)) l.

Definition oown_props (v : OVal) : list (string * OVal) :=
  match v with
  | OObj props => props
  | OArr l => oindexed l
  | OStr s => oindexed (ochars s)
  | _ => []
  end.

(** [target.k = x] as an object literal or a spread does it: a key that is
    there keeps its place, a new key goes to the end (the keys so added
    in this module are never an index). *)
Fixpoint oset (k : string) (x : OVal) (target : list (string * OVal))
  : list (string * OVal) :=
  match target with
  | [] => [(k, x)]
  | (k', y) :: rest =>
      if String.eqb k' k then (k', x) :: rest else (k', y) :: oset k x rest
  end.

(** [{ ...target, ...src }]: the properties of [src] are set one after
    the other, in their order. *)
Definition ospread (target : list (string * OVal)) (src : OVal)
  : list (string * OVal) :=
  fold_left (λ acc p, oset p.1 p.2 acc) (oown_props src) target.

Definition ojs_and (a b : OVal) : OVal := if otruthy a then b else a.

(** [replacePrivateValues] on ordered objects, line by line as the one
    above. *)
Definition replacePrivateValuesOrdered
  (unredactedConfig : list (string * OVal)) : list (string * OVal) :=
  let admin := ofield unredactedConfig "firebaseAdminInitConfig" in
  let credential := oprop admin "credential" in
  let redactedConfig := ospread [] (OObj unredactedConfig) in
  let redactedConfig :=
    oset "cookies"
      (OObj (oset "keys" (OArr [OStr "hidden"])
               (ospread [] (ofield unredactedConfig "cookies"))))
      redactedConfig in
  ospread redactedConfig
    (ojs_and admin
       (OObj [("firebaseAdminInitConfig",
               OObj (ospread (ospread [] admin)
                       (ojs_and credential
                          (OObj [("credential",
                                  OObj (oset "clientEmail" (OStr "hidden")
                                          (oset "privateKey" (OStr "hidden")
                                             (ospread [] credential))))])))
              )])).

(** Every key once, at the four places [replacePrivateValues] spreads. *)
Definition wellKeyed (u : list (string * OVal)) : Prop :=
  let admin := ofield u "firebaseAdminInitConfig" in
  NoDup u.*1 ∧
  NoDup (oown_props (ofield u "cookies")).*1 ∧
  NoDup (oown_props admin).*1 ∧
  NoDup (oown_props (oprop admin "credential")).*1.

(** The tenth claim as it is worded: the two logged objects are
    identical. *)
Definition logged_objects_identical : Prop :=
  ∀ u1 u2 : list (string * OVal),
    wellKeyed u1 → wellKeyed u2 →
    sameExceptSecrets (eraseProps u1) (eraseProps u2) →
    replacePrivateValuesOrdered u1 = replacePrivateValuesOrdered u2.

Definition cookiesWithKeys : list (string * OVal) :=
  [("cookies", OObj [("keys", OArr [OStr "secret"]); ("name", OStr "MyApp")])].

Definition cookiesWithoutKeys : list (string * OVal) :=
  [("cookies", OObj [("name", OStr "MyApp")])].

(** ** Reading the error list *)

Lemma occurrences_nil msg : occurrences msg [] = 0%nat.
Proof. reflexivity. Qed.

Lemma occurrences_push_same msg l :
  occurrences msg (push msg l) = S (occurrences msg l).
Proof.
  unfold occurrences, push. rewrite filter_app, length_app.
  rewrite filter_cons_True by reflexivity. cbn. lia.
Qed.

Lemma occurrences_push_other msg msg' l :
  String.eqb msg' msg = false →
  occurrences msg (push msg' l) = occurrences msg l.
Proof.
  intros Hne%String.eqb_neq. unfold occurrences, push.
  rewrite filter_app, length_app, filter_cons_False by assumption.
  cbn. lia.
Qed.

Lemma occurrences_push_if_same c msg l :
  occurrences msg (push_if c msg l)
  = ((if c then 1 else 0) + occurrences msg l)%nat.
Proof. destruct c; cbn [push_if]; [apply occurrences_push_same | reflexivity]. Qed.

Lemma occurrences_push_if_other c msg msg' l :
  String.eqb msg' msg = false →
  occurrences msg (push_if c msg' l) = occurrences msg l.
Proof.
  intros H. destruct c; cbn [push_if]; [by apply occurrences_push_other | reflexivity].
Qed.

Lemma occurrences_if (c : bool) msg l1 l2 :
  occurrences msg (if c then l1 else l2)
  = if c then occurrences msg l1 else occurrences msg l2.
Proof. by destruct c. Qed.

Lemma occurrences_pos_In msg l : (0 < occurrences msg l)%nat → msg ∈ l.
Proof.
  unfold occurrences. intros H.
  destruct (filter (λ x, x = msg) l) as [|x r] eqn:Hf; [cbn in H; lia |].
  assert (Hx : x ∈ filter (λ x, x = msg) l) by (rewrite Hf; left).
  apply list_elem_of_filter in Hx as [-> Hx]. exact Hx.
Qed.


Lemma occurrences_app msg l1 l2 :
  occurrences msg (l1 ++ l2)%list
  = (occurrences msg l1 + occurrences msg l2)%nat.
Proof. unfold occurrences. by rewrite filter_app, length_app. Qed.

(** Every check only appends to the list it is given. *)
Lemma push_if_app c msg l : push_if c msg l = (l ++ push_if c msg [])%list.
Proof. destruct c; cbv [push_if push]; [reflexivity | by rewrite app_nil_r]. Qed.

Ltac by_appending :=
  cbv [push_if push negb]; cbn [app];
  rewrite <- ?app_assoc, ?app_nil_r; reflexivity.

Lemma checkTokenChangedHandler_app m l :
  checkTokenChangedHandler m l = (l ++ checkTokenChangedHandler m [])%list.
Proof.
  unfold checkTokenChangedHandler. cbv zeta.
  generalize (truthy (field m "tokenChangedHandler"))
    (truthy (field m "loginAPIEndpoint")) (truthy (field m "logoutAPIEndpoint"))
    (truthy (field m "onLoginRequestError"))
    (truthy (field m "onLogoutRequestError")).
  intros [] [] [] [] []; by_appending.
Qed.

Lemma checkApiKey_app m l : checkApiKey m l = (l ++ checkApiKey m [])%list.
Proof. apply push_if_app. Qed.

Lemma checkErrorHandlers_app m l :
  checkErrorHandlers m l = (l ++ checkErrorHandlers m [])%list.
Proof.
  unfold checkErrorHandlers. cbv zeta.
  generalize (notFuncOrUndef (field m "onVerifyTokenError"))
    (notFuncOrUndef (field m "onTokenRefreshError"))
    (notFuncOrUndef (field m "onLoginRequestError"))
    (notFuncOrUndef (field m "onLogoutRequestError")).
  intros [] [] [] []; by_appending.
Qed.

Lemma checkClientSide_app m k l :
  checkClientSide m k l = (l ++ checkClientSide m k [])%list.
Proof.
  unfold checkClientSide. cbv zeta.
  generalize (truthy (field m "tokenChangedHandler"))
    (truthy (field m "loginAPIEndpoint")) (truthy (field m "logoutAPIEndpoint")).
  intros [] [] []; cbn [negb];
    match goal with |- context [push_if ?c Msg.privateKeyOnClient] =>
      generalize c end;
    intros []; destruct k; by_appending.
Qed.

Lemma checkEmulatorEnv_app E m l :
  checkEmulatorEnv E m l = (l ++ checkEmulatorEnv E m [])%list.
Proof.
  unfold checkEmulatorEnv.
  destruct (truthy _), (FIREBASE_AUTH_EMULATOR_HOST E) as [v|];
    try destruct (negb (truthy (JStr v)));
    try destruct (str_strict_ne _ _); by_appending.
Qed.

Lemma checkMaxAge_app c l : checkMaxAge c l = (l ++ checkMaxAge c [])%list.
Proof. apply push_if_app. Qed.

Lemma checkServerSide_app E m c l :
  checkServerSide E m c l = (l ++ checkServerSide E m c [])%list.
Proof.
  unfold checkServerSide. cbv zeta.
  set (n := negb (truthy (prop c "name"))).
  rewrite (checkMaxAge_app c (checkEmulatorEnv E m (push_if n _ l))).
  rewrite (checkMaxAge_app c (checkEmulatorEnv E m (push_if n _ []))).
  rewrite (checkEmulatorEnv_app E m (push_if n _ l)).
  rewrite (checkEmulatorEnv_app E m (push_if n _ [])).
  rewrite (push_if_app n _ l).
  by rewrite <- !app_assoc.
Qed.

Lemma checkEmulatorHost_hostOk m l :
  hostOk (field m "firebaseAuthEmulatorHost") = true →
  checkEmulatorHost m l
  = Ok (l ++ push_if (hostHasPrefix (field m "firebaseAuthEmulatorHost"))
               Msg.emulatorPrefix [])%list.
Proof.
  unfold checkEmulatorHost. rewrite <- push_if_app.
  destruct (field m "firebaseAuthEmulatorHost") as [| |b|n|s|f|a|o];
    cbn [hostOk truthy hostHasPrefix startsWith];
    try discriminate; try reflexivity.
  - by intros ->%negb_true_iff.
  - by intros ->%negb_true_iff.
  - intros _. by destruct s.
Qed.

Lemma cookiesOf_cookiesOk m :
  cookiesOk (field m "cookies") = true →
  cookiesOf m = Ok (field m "cookies").
Proof. unfold cookiesOf. by destruct (field m "cookies"). Qed.

(** On a well-formed configuration [validateConfig] returns, and its
    error list is the concatenation of what each check contributes. *)
Lemma validateConfig_wellFormed E m :
  wellFormed m = true →
  validateConfig E m
  = Ok {| isValid := (length (allMessages E m) =? 0)%nat;
          errors := allMessages E m |}.
Proof.
  intros [Hh Hc]%andb_prop. unfold validateConfig. cbv zeta.
  rewrite (checkEmulatorHost_hostOk _ _ Hh), (cookiesOf_cookiesOk _ Hc).
  unfold mbind, res_bind.
  assert (Heq :
    (if isClientSide E
     then checkClientSide m
            (areCookieKeysDefined (prop (field m "cookies") "keys"))
            (checkErrorHandlers m
               (checkApiKey m (checkTokenChangedHandler m []) ++
                push_if (hostHasPrefix (field m "firebaseAuthEmulatorHost"))
                  Msg.emulatorPrefix []))
     else checkServerSide E m (field m "cookies")
            (checkErrorHandlers m
               (checkApiKey m (checkTokenChangedHandler m []) ++
                push_if (hostHasPrefix (field m "firebaseAuthEmulatorHost"))
                  Msg.emulatorPrefix [])))%list
    = allMessages E m).
  { unfold allMessages, contextMessages.
    destruct (isClientSide E).
    - rewrite checkClientSide_app, checkErrorHandlers_app, checkApiKey_app.
      by rewrite <- !app_assoc.
    - rewrite checkServerSide_app, checkErrorHandlers_app, checkApiKey_app.
      unfold checkServerSide. cbv zeta.
      set (n := negb (truthy (prop (field m "cookies") "name"))).
      rewrite (checkMaxAge_app _ (checkEmulatorEnv E m (push_if n _ []))).
      rewrite (checkEmulatorEnv_app E m (push_if n _ [])).
      by rewrite <- !app_assoc. }
  by rewrite Heq.
Qed.

(** Counting one message through the pushes of the checks. *)
Ltac distinct_msgs := vm_compute; reflexivity.

Lemma occurrences_checkEmulatorEnv_other E m msg l :
  String.eqb Msg.emulatorEnvUnset msg = false →
  String.eqb Msg.emulatorEnvMismatch msg = false →
  occurrences msg (checkEmulatorEnv E m l) = occurrences msg l.
Proof.
  intros H1 H2. unfold checkEmulatorEnv.
  destruct (truthy _), (FIREBASE_AUTH_EMULATOR_HOST E) as [e|];
    try destruct (negb (truthy (JStr e)));
    rewrite ?occurrences_push_if_other, ?occurrences_push_other by assumption;
    reflexivity.
Qed.

Ltac count_pushes :=
  cbv zeta;
  repeat first
    [ rewrite occurrences_app
    | rewrite occurrences_if
    | rewrite occurrences_push_if_same
    | rewrite occurrences_push_same
    | rewrite occurrences_push_if_other by distinct_msgs
    | rewrite occurrences_push_other by distinct_msgs
    | rewrite occurrences_checkEmulatorEnv_other by distinct_msgs
    | rewrite occurrences_nil ].

Ltac count_in_checks :=
  unfold allMessages, contextMessages, checkTokenChangedHandler, checkApiKey,
    checkErrorHandlers, checkClientSide, checkMaxAge;
  count_pushes.

(** [validateConfig] returns on a well-formed configuration; what is left
    is a statement about [allMessages]. *)
Ltac validateConfig_returns Hwf :=
  rewrite (validateConfig_wellFormed _ _ Hwf);
  eexists; split; [reflexivity |]; cbn [errors isValid].

Ltac case_truthy :=
  repeat match goal with
    | |- context [truthy ?x] => destruct (truthy x)
    end.

Ltac case_conditions :=
  repeat match goal with
    | |- context [if ?c then _ else _] => destruct c
    end;
  (reflexivity || lia).

(** ** Properties of [validateConfig] *)

(** C5: when a token-change callback is configured, each of the login
    endpoint, the logout endpoint, the on-login-request-error callback and
    the on-logout-request-error callback that is set adds its own message
    exactly once; when no token-change callback is configured, none of the
    four messages is produced. *)
Theorem C5_exclusive_with_tokenChangedHandler
  (E : Env) (m : gmap string JsVal) (Hwf : wellFormed m = true) :
  ∃ v, validateConfig E m = Ok v ∧
    let handler := truthy (field m "tokenChangedHandler") in
    let once (setting : string) : nat :=
      if handler && truthy (field m setting) then 1%nat else 0%nat in
    occurrences Msg.loginWithHandler (errors v) = once "loginAPIEndpoint" ∧
    occurrences Msg.logoutWithHandler (errors v) = once "logoutAPIEndpoint" ∧
    occurrences Msg.onLoginErrWithHandler (errors v)
      = once "onLoginRequestError" ∧
    occurrences Msg.onLogoutErrWithHandler (errors v)
      = once "onLogoutRequestError".
Proof.
  validateConfig_returns Hwf.
  repeat split; count_in_checks;
    destruct (isClientSide E); case_truthy; reflexivity.
Qed.

(** C6: in the browser, a configuration with no token-change callback, no
    login endpoint and no logout endpoint gets the two endpoint-required
    messages, once each; with a token-change callback it gets neither. *)
Theorem C6_client_endpoints_required
  (E : Env) (m : gmap string JsVal)
  (Hclient : isClientSide E = true) (Hwf : wellFormed m = true) :
  ∃ v, validateConfig E m = Ok v ∧
    (truthy (field m "tokenChangedHandler") = false →
     truthy (field m "loginAPIEndpoint") = false →
     truthy (field m "logoutAPIEndpoint") = false →
     occurrences Msg.loginRequired (errors v) = 1%nat ∧
     occurrences Msg.logoutRequired (errors v) = 1%nat) ∧
    (truthy (field m "tokenChangedHandler") = true →
     occurrences Msg.loginRequired (errors v) = 0%nat ∧
     occurrences Msg.logoutRequired (errors v) = 0%nat).
Proof.
  validateConfig_returns Hwf.
  split; [intros Hh Hl Ho | intros Hh]; split;
    count_in_checks; rewrite Hclient, Hh, ?Hl, ?Ho; reflexivity.
Qed.

(** C9, as stated, fails: the host ftp://localhost:9099 includes a URL
    scheme prefix and gets no message. *)
Lemma C9_counterexample : ¬ emulatorPrefix_iff_scheme.
Proof.
  intros H.
  assert (Hwf : wellFormed ftpHostConfig = true) by (vm_compute; reflexivity).
  assert (Hh : field ftpHostConfig "firebaseAuthEmulatorHost"
               = JStr "ftp://localhost:9099") by (vm_compute; reflexivity).
  pose proof (validateConfig_wellFormed (mkEnv false None) _ Hwf) as Hv.
  destruct (H _ _ _ _ Hwf Hh eq_refl Hv) as [_ Hscheme].
  assert (Hs : hasUrlSchemePrefix "ftp://localhost:9099" = true)
    by (vm_compute; reflexivity).
  specialize (Hscheme Hs). vm_compute in Hscheme. lia.
Qed.

(** The other direction fails too: httpd.local:9099 has no scheme prefix
    and gets the message. *)
Example httpd_host_is_rejected :
  hasUrlSchemePrefix "httpd.local:9099" = false ∧
  ∃ v, validateConfig (mkEnv false None) httpdHostConfig = Ok v ∧
       occurrences Msg.emulatorPrefix (errors v) = 1%nat.
Proof.
  split; [vm_compute; reflexivity |].
  assert (Hwf : wellFormed httpdHostConfig = true) by (vm_compute; reflexivity).
  eexists; split; [apply (validateConfig_wellFormed _ _ Hwf) |].
  vm_compute. reflexivity.
Qed.

(** C9, amended: with a host configured, in the browser and on the server
    alike, the prefix message is there, once, exactly when the host starts
    with the four characters "http"; a host such as localhost:9099 gets
    none. *)
Theorem C9_emulator_host_prefix
  (E : Env) (m : gmap string JsVal) (h : string)
  (Hwf : wellFormed m = true)
  (Hhost : field m "firebaseAuthEmulatorHost" = JStr h) :
  ∃ v, validateConfig E m = Ok v ∧
    occurrences Msg.emulatorPrefix (errors v)
    = (if String.prefix "http" h then 1%nat else 0%nat).
Proof.
  validateConfig_returns Hwf.
  count_in_checks. rewrite Hhost. cbn [hostHasPrefix].
  case_conditions.
Qed.

Lemma C9_emulator_host_prefix_witness :
  ∃ v, validateConfig (mkEnv true None)
         {[ "firebaseAuthEmulatorHost" := JStr "localhost:9099";
            "cookies" := JObj ∅ ]} = Ok v ∧
    occurrences Msg.emulatorPrefix (errors v) = 0%nat.
Proof.
  apply (C9_emulator_host_prefix (mkEnv true None)
           {[ "firebaseAuthEmulatorHost" := JStr "localhost:9099";
              "cookies" := JObj ∅ ]}
           "localhost:9099"); vm_compute; reflexivity.
Defined.

(** C7, as stated, fails: with the variable set to the empty string, which
    differs from the host localhost:9099, the mismatch message is not
    produced (the message for an unset variable is). *)
Lemma C7_counterexample : ¬ emulatorEnv_unset_or_different.
Proof.
  intros H.
  assert (Hwf : wellFormed localhostConfig = true) by (vm_compute; reflexivity).
  assert (Hh : field localhostConfig "firebaseAuthEmulatorHost"
               = JStr "localhost:9099") by (vm_compute; reflexivity).
  pose proof (validateConfig_wellFormed (mkEnv false (Some EmptyString)) _ Hwf) as Hv.
  destruct (H (mkEnv false (Some EmptyString)) _ _ _ eq_refl Hwf Hh eq_refl Hv)
    as [Hmismatch _].
  vm_compute in Hmismatch. lia.
Qed.

(** C7, amended: on the server, with a host [h] configured, a variable
    that is unset or empty gets the message for a missing variable, a
    non-empty variable other than [h] gets the mismatch message, a
    variable equal to [h] gets neither; each message comes at most once
    and never both. *)
Theorem C7_emulator_env_variable
  (E : Env) (m : gmap string JsVal) (h : string)
  (Hserver : isClientSide E = false)
  (Hwf : wellFormed m = true)
  (Hhost : field m "firebaseAuthEmulatorHost" = JStr h)
  (Hset : truthy (JStr h) = true) :
  ∃ v, validateConfig E m = Ok v ∧
    let unset := occurrences Msg.emulatorEnvUnset (errors v) in
    let mismatch := occurrences Msg.emulatorEnvMismatch (errors v) in
    match FIREBASE_AUTH_EMULATOR_HOST E with
    | None => unset = 1%nat ∧ mismatch = 0%nat
    | Some e =>
        if String.eqb e EmptyString then unset = 1%nat ∧ mismatch = 0%nat
        else if String.eqb e h then unset = 0%nat ∧ mismatch = 0%nat
        else unset = 0%nat ∧ mismatch = 1%nat
    end.
Proof.
  validateConfig_returns Hwf. cbv zeta.
  assert (Hcount : ∀ msg,
    String.eqb Msg.emulatorEnvUnset msg || String.eqb Msg.emulatorEnvMismatch msg
      = true →
    occurrences msg (allMessages E m)
    = occurrences msg (checkEmulatorEnv E m [])).
  { intros msg Hmsg. unfold allMessages, contextMessages. rewrite Hserver.
    apply orb_true_iff in Hmsg as [<-%String.eqb_eq | <-%String.eqb_eq];
      count_in_checks; case_conditions. }
  rewrite !Hcount by (vm_compute; reflexivity).
  unfold checkEmulatorEnv. rewrite Hhost, Hset. cbn [truthy str_strict_ne].
  destruct (FIREBASE_AUTH_EMULATOR_HOST E) as [e|].
  - destruct (String.eqb e EmptyString); cbn [negb].
    + split; count_pushes; reflexivity.
    + destruct (String.eqb e h); cbn [negb]; split; count_pushes; reflexivity.
  - split; count_pushes; reflexivity.
Qed.

Lemma C7_emulator_env_variable_witness :
  ∃ v, validateConfig (mkEnv false (Some "127.0.0.1:9099")) localhostConfig
       = Ok v ∧
    occurrences Msg.emulatorEnvUnset (errors v) = 0%nat ∧
    occurrences Msg.emulatorEnvMismatch (errors v) = 1%nat.
Proof.
  apply (C7_emulator_env_variable (mkEnv false (Some "127.0.0.1:9099"))
           localhostConfig "localhost:9099"); vm_compute; reflexivity.
Defined.

(** ** Strings: a joined list mentions each of its elements *)

Lemma string_app_assoc (a b c : string) : (a ++ b) ++ c = a ++ b ++ c.
Proof.
  induction a as [|ch a IH]; [reflexivity |].
  change (String ch ((a ++ b) ++ c) = String ch (a ++ b ++ c)).
  by f_equal.
Qed.

Lemma string_app_empty_r (a : string) : a ++ EmptyString = a.
Proof.
  induction a as [|ch a IH]; [reflexivity |].
  change (String ch (a ++ EmptyString) = String ch a). by f_equal.
Qed.

Lemma mentions_join (sep pre msg : string) (l : list string) :
  msg ∈ l → mentions (pre ++ join sep l) msg.
Proof.
  revert pre. induction l as [|x r IH]; intros pre Hin.
  - by apply elem_of_nil in Hin.
  - apply elem_of_cons in Hin as [-> | Hin].
    + destruct r as [|y r]; cbn [join].
      * exists pre, EmptyString. by rewrite string_app_empty_r.
      * by exists pre, (sep ++ join sep (y :: r)).
    + destruct r as [|y r]; [by apply elem_of_nil in Hin |].
      destruct (IH ((pre ++ x) ++ sep) Hin) as (p & q & Hpq).
      exists p, q. rewrite <- Hpq.
      change (join sep (x :: y :: r)) with (x ++ sep ++ join sep (y :: r)).
      by rewrite !string_app_assoc.
Qed.

(** ** The redacted configuration *)

Lemma own_props_falsy v : truthy v = false → own_props v = ∅.
Proof.
  destruct v as [| |b|n|s|f|l|o]; try reflexivity; try discriminate.
  destruct s; [reflexivity | discriminate].
Qed.

Lemma delete_eq_lookup (m1 m2 : gmap string JsVal) k k' :
  delete k m1 = delete k m2 → k' ≠ k → m1 !! k' = m2 !! k'.
Proof.
  intros H Hne.
  rewrite <- (lookup_delete_ne m1 k k'), <- (lookup_delete_ne m2 k k')
    by congruence.
  by rewrite H.
Qed.

Lemma replacePrivateValues_unfold u :
  replacePrivateValues u
  = redactedAdmin (field u "firebaseAdminInitConfig") ∪
    <["cookies" := JObj (redactedCookies (field u "cookies"))]> u.
Proof.
  unfold replacePrivateValues, redactedAdmin, redactedCredential,
    redactedCookies, spread. cbv zeta. cbn [own_props].
  by rewrite !(right_id_L ∅ (∪)).
Qed.

Lemma redactedAdmin_lookup_ne a k :
  k ≠ "firebaseAdminInitConfig" → redactedAdmin a !! k = None.
Proof.
  intros Hk. unfold redactedAdmin, js_and.
  destruct (truthy a) eqn:Ha; cbn [own_props].
  - by rewrite lookup_singleton_ne.
  - by rewrite (own_props_falsy _ Ha).
Qed.

Lemma redactedAdmin_credential a :
  truthy a = true → truthy (prop a "credential") = true →
  redactedAdmin a
  = {[ "firebaseAdminInitConfig" :=
         JObj ({[ "credential" :=
                    JObj (redactedCredential (prop a "credential")) ]}
               ∪ own_props a) ]}.
Proof.
  intros Ha Hc. unfold redactedAdmin, js_and, spread. rewrite Ha, Hc.
  cbn [own_props]. by rewrite (right_id_L ∅ (∪)).
Qed.

Lemma replacePrivateValues_cookies u :
  replacePrivateValues u !! "cookies"
  = Some (JObj (redactedCookies (field u "cookies"))).
Proof.
  rewrite replacePrivateValues_unfold, lookup_union.
  rewrite redactedAdmin_lookup_ne by done.
  by rewrite lookup_insert_eq.
Qed.

Lemma field_lookup (m : gmap string JsVal) k v :
  m !! k = Some v → field m k = v.
Proof. unfold field. by intros ->. Qed.

Lemma logged_keys_hidden u :
  prop (field (replacePrivateValues u) "cookies") "keys"
  = JArr [JStr "hidden"].
Proof.
  rewrite (field_lookup _ _ _ (replacePrivateValues_cookies u)).
  cbn [prop]. apply field_lookup. unfold redactedCookies.
  by rewrite lookup_insert_eq.
Qed.


Lemma redactedCookies_eq c1 c2 :
  delete "keys" (own_props c1) = delete "keys" (own_props c2) →
  redactedCookies c1 = redactedCookies c2.
Proof.
  intros H. unfold redactedCookies.
  by rewrite <- (insert_delete_eq (own_props c1)),
             <- (insert_delete_eq (own_props c2)), H.
Qed.

Lemma redactedCredential_eq c1 c2 :
  delete "privateKey" (delete "clientEmail" (own_props c1))
  = delete "privateKey" (delete "clientEmail" (own_props c2)) →
  redactedCredential c1 = redactedCredential c2.
Proof.
  intros H. unfold redactedCredential. apply map_eq. intros k.
  destruct (decide (k = "clientEmail")) as [-> | Hce];
    [by rewrite !lookup_insert_eq |].
  rewrite !(lookup_insert_ne _ "clientEmail") by congruence.
  destruct (decide (k = "privateKey")) as [-> | Hpk];
    [by rewrite !lookup_insert_eq |].
  rewrite !(lookup_insert_ne _ "privateKey") by congruence.
  rewrite <- (lookup_delete_ne (own_props c1) "clientEmail" k),
          <- (lookup_delete_ne (own_props c2) "clientEmail" k) by congruence.
  by apply (delete_eq_lookup _ _ "privateKey").
Qed.

Lemma redactedAdmin_eq a1 a2 :
  truthy a1 = true → truthy a2 = true →
  delete "credential" (own_props a1) = delete "credential" (own_props a2) →
  truthy (prop a1 "credential") = true →
  truthy (prop a2 "credential") = true →
  delete "privateKey" (delete "clientEmail" (own_props (prop a1 "credential")))
  = delete "privateKey" (delete "clientEmail"
      (own_props (prop a2 "credential"))) →
  redactedAdmin a1 = redactedAdmin a2.
Proof.
  intros Ha1 Ha2 Hrest Hc1 Hc2 Hcred.
  rewrite (redactedAdmin_credential _ Ha1 Hc1),
          (redactedAdmin_credential _ Ha2 Hc2).
  rewrite (redactedCredential_eq _ _ Hcred).
  do 2 f_equal. apply map_eq. intros k. rewrite !lookup_union.
  destruct (decide (k = "credential")) as [-> | Hk].
  - rewrite !lookup_singleton_eq.
    by destruct (own_props a1 !! "credential"),
         (own_props a2 !! "credential").
  - rewrite !lookup_singleton_ne by congruence.
    by rewrite (delete_eq_lookup _ _ _ k Hrest Hk).
Qed.

Lemma replacePrivateValues_sameExceptSecrets u1 u2 :
  sameExceptSecrets u1 u2 →
  replacePrivateValues u1 = replacePrivateValues u2.
Proof.
  intros (Hrest & Hcookies & Hadmin).
  rewrite !replacePrivateValues_unfold.
  rewrite (redactedCookies_eq _ _ Hcookies).
  apply map_eq. intros k. rewrite !lookup_union.
  destruct (decide (k = "firebaseAdminInitConfig")) as [-> | Hk].
  - rewrite !lookup_insert_ne by done.
    destruct Hadmin as [Hsame | (Ha1 & Ha2 & Hr & Hc1 & Hc2 & Hcred)].
    + unfold field. by rewrite Hsame.
    + rewrite (redactedAdmin_eq _ _ Ha1 Ha2 Hr Hc1 Hc2 Hcred).
      rewrite (redactedAdmin_credential _ Ha2 Hc2), lookup_singleton_eq.
      by destruct (u1 !! "firebaseAdminInitConfig"),
           (u2 !! "firebaseAdminInitConfig").
  - rewrite !redactedAdmin_lookup_ne by exact Hk.
    destruct (decide (k = "cookies")) as [-> | Hck].
    + by rewrite !lookup_insert_eq.
    + rewrite !lookup_insert_ne by congruence.
      rewrite <- (lookup_delete_ne u1 "firebaseAdminInitConfig" k),
              <- (lookup_delete_ne u2 "firebaseAdminInitConfig" k)
        by congruence.
      f_equal. by apply (delete_eq_lookup _ _ "cookies").
Qed.

(** ** The merged configuration *)

Section Merged.

Variable defaultConfig : gmap string JsVal.

Lemma mergeConfig_lookup_cookies u :
  mergeConfig defaultConfig u !! "cookies"
  = Some (JObj (userCookies u ∪ own_props (field defaultConfig "cookies"))).
Proof.
  unfold mergeConfig. cbv zeta. rewrite lookup_insert_eq.
  unfold spread, js_or, userCookies.
  destruct (truthy (field u "cookies")); cbn [own_props];
    by rewrite (right_id_L ∅ (∪)).
Qed.

Lemma mergeConfig_lookup u k :
  k ≠ "cookies" →
  mergeConfig defaultConfig u !! k
  = match u !! k with Some x => Some x | None => defaultConfig !! k end.
Proof.
  intros Hk. unfold mergeConfig. cbv zeta.
  rewrite lookup_insert_ne by congruence.
  unfold spread. cbn [own_props].
  rewrite (right_id_L ∅ (∪)), lookup_union, lookup_delete_ne by congruence.
  by destruct (u !! k), (defaultConfig !! k).
Qed.

Lemma mergeConfig_cookiesOk u :
  cookiesOk (field (mergeConfig defaultConfig u) "cookies") = true.
Proof. unfold field. by rewrite mergeConfig_lookup_cookies. Qed.

Lemma mergeConfig_wellFormed u :
  hostOk (field (mergeConfig defaultConfig u) "firebaseAuthEmulatorHost")
    = true →
  wellFormed (mergeConfig defaultConfig u) = true.
Proof.
  intros H. unfold wellFormed. by rewrite H, mergeConfig_cookiesOk.
Qed.

(** [setConfig] on a user configuration whose merged emulator host is a
    string or unset: the log entry is written, then either the merged
    configuration is stored or the error lists every message. *)
Lemma setConfig_wellFormed E u st :
  wellFormed (mergeConfig defaultConfig u) = true →
  setConfig defaultConfig E u st
  = let logged :=
      logDebug Msg.logLabel (JObj (replacePrivateValues u)) st in
    let messages := allMessages E (mergeConfig defaultConfig u) in
    match messages with
    | [] => (mkState (JObj (mergeConfig defaultConfig u)) (debugLog logged),
             Ok ())
    | _ => (logged, Throw (Error (Msg.invalidPrefix ++ join " " messages)))
    end.
Proof.
  intros Hwf. unfold setConfig. cbv zeta.
  rewrite (validateConfig_wellFormed _ _ Hwf). cbn [isValid errors].
  by destruct (allMessages E (mergeConfig defaultConfig u)).
Qed.

(** A message in the error list makes [setConfig] raise an error that
    mentions it, and leaves the stored configuration as it was. *)
Lemma setConfig_raises E u st msg :
  wellFormed (mergeConfig defaultConfig u) = true →
  (0 < occurrences msg (allMessages E (mergeConfig defaultConfig u)))%nat →
  ∃ v,
    validateConfig E (mergeConfig defaultConfig u) = Ok v ∧
    snd (setConfig defaultConfig E u st)
      = Throw (Error (Msg.invalidPrefix ++ join " " (errors v))) ∧
    mentions (Msg.invalidPrefix ++ join " " (errors v)) msg ∧
    config (fst (setConfig defaultConfig E u st)) = config st.
Proof.
  intros Hwf Hin%occurrences_pos_In.
  rewrite (setConfig_wellFormed _ _ _ Hwf). cbv zeta.
  rewrite (validateConfig_wellFormed _ _ Hwf).
  pose proof (mentions_join " " Msg.invalidPrefix _ _ Hin) as Hm.
  eexists; split; [reflexivity |]. cbn [errors].
  destruct (allMessages E (mergeConfig defaultConfig u)) as [|x r] eqn:Hall.
  - by apply elem_of_nil in Hin.
  - cbn [fst snd]. split; [reflexivity |]. split; [exact Hm | reflexivity].
Qed.

(** C4: when the merged configuration has no client API key (no
    [firebaseClientInitConfig], or no or an empty [apiKey] in it),
    [setConfig] raises the invalid-configuration error, its message
    mentions that the key is required, and nothing is stored; this holds
    in the browser and on the server. *)
Theorem C4_api_key_required
  (E : Env) (u : gmap string JsVal) (st : State)
  (Hhost :
     hostOk (field (mergeConfig defaultConfig u) "firebaseAuthEmulatorHost")
     = true)
  (Hkey :
     let client :=
       field (mergeConfig defaultConfig u) "firebaseClientInitConfig" in
     truthy client && truthy (prop client "apiKey") = false) :
  ∃ v,
    validateConfig E (mergeConfig defaultConfig u) = Ok v ∧
    isValid v = false ∧
    occurrences Msg.apiKeyRequired (errors v) = 1%nat ∧
    snd (setConfig defaultConfig E u st)
      = Throw (Error (Msg.invalidPrefix ++ join " " (errors v))) ∧
    mentions (Msg.invalidPrefix ++ join " " (errors v)) Msg.apiKeyRequired ∧
    config (fst (setConfig defaultConfig E u st)) = config st.
Proof.
  cbv zeta in Hkey.
  pose proof (mergeConfig_wellFormed _ Hhost) as Hwf.
  assert (Hcount :
    occurrences Msg.apiKeyRequired
      (allMessages E (mergeConfig defaultConfig u)) = 1%nat).
  { count_in_checks. rewrite Hkey. cbn [negb]. case_conditions. }
  destruct (setConfig_raises E u st Msg.apiKeyRequired Hwf) as (v & Hv & Hr);
    [rewrite Hcount; lia |].
  exists v. split; [exact Hv |].
  rewrite (validateConfig_wellFormed _ _ Hwf) in Hv.
  injection Hv as <-. cbn [isValid errors].
  split; [| split; [exact Hcount | exact Hr]].
  destruct (allMessages E (mergeConfig defaultConfig u)); [| reflexivity].
  discriminate Hcount.
Qed.

(** The max-age message is there, once, exactly when the age is falsy
    or above the ceiling. *)
Lemma maxAge_message_count E m :
  isClientSide E = false →
  occurrences Msg.maxAgeCeiling (allMessages E m)
  = if negb (truthy (prop (field m "cookies") "maxAge")) ||
       js_gt (prop (field m "cookies") "maxAge") TWO_WEEKS_IN_MS
    then 1%nat else 0%nat.
Proof.
  intros Hserver. count_in_checks. rewrite Hserver. case_conditions.
Qed.

(** C1: the ceiling is fourteen days in milliseconds.  On the server, a
    merged [cookies.maxAge] of fifteen days makes [setConfig] raise the
    invalid-configuration error with the two-week message in it; an age
    of exactly 14*60*60*24*1000 gets no max-age message; an age of zero,
    or any other falsy age, gets it. *)
Theorem C1_max_age_ceiling
  (E : Env) (u : gmap string JsVal) (st : State)
  (Hserver : isClientSide E = false)
  (Hhost :
     hostOk (field (mergeConfig defaultConfig u) "firebaseAuthEmulatorHost")
     = true) :
  let merged := mergeConfig defaultConfig u in
  let maxAge := prop (field merged "cookies") "maxAge" in
  let day := (24 * 60 * 60 * 1000)%Z in
  TWO_WEEKS_IN_MS = (14 * day)%Z ∧
  (maxAge = JNum (15 * day) →
   ∃ v, validateConfig E merged = Ok v ∧
     snd (setConfig defaultConfig E u st)
       = Throw (Error (Msg.invalidPrefix ++ join " " (errors v))) ∧
     mentions (Msg.invalidPrefix ++ join " " (errors v)) Msg.maxAgeCeiling ∧
     config (fst (setConfig defaultConfig E u st)) = config st) ∧
  (maxAge = JNum (14 * 60 * 60 * 24 * 1000) →
   ∃ v, validateConfig E merged = Ok v ∧
     occurrences Msg.maxAgeCeiling (errors v) = 0%nat) ∧
  (truthy maxAge = false →
   ∃ v, validateConfig E merged = Ok v ∧
     occurrences Msg.maxAgeCeiling (errors v) = 1%nat).
Proof.
  cbv zeta.
  pose proof (mergeConfig_wellFormed _ Hhost) as Hwf.
  pose proof (maxAge_message_count E (mergeConfig defaultConfig u) Hserver)
    as Hcount.
  split; [vm_compute; reflexivity |]. split; [| split].
  - intros Hage. apply setConfig_raises; [exact Hwf |].
    rewrite Hcount, Hage. vm_compute. lia.
  - intros Hage. validateConfig_returns Hwf.
    rewrite Hcount, Hage. vm_compute. reflexivity.
  - intros Hage. validateConfig_returns Hwf.
    rewrite Hcount, Hage. reflexivity.
Qed.

(** C2, amended: in the merged configuration every field other than
    [cookies] is the user's when the user object has that key, an explicit
    [undefined] included, and the default's otherwise; [cookies] is an
    object whose every key is the user's when the user supplies it and the
    default's otherwise; so every key, and every cookie option, that the
    defaults have is there, and a field is defined when the user does not
    give it as [undefined] and the user or the defaults give it a value.
    It is this object that a successful [setConfig] stores. *)
Theorem C2_merged_config
  (E : Env) (u : gmap string JsVal) (st : State) :
  let merged := mergeConfig defaultConfig u in
  (∀ k, k ≠ "cookies" →
     merged !! k
     = match u !! k with Some x => Some x | None => defaultConfig !! k end) ∧
  (∃ c, merged !! "cookies" = Some (JObj c) ∧
     (∀ k, c !! k
           = match userCookies u !! k with
             | Some x => Some x
             | None => own_props (field defaultConfig "cookies") !! k
             end) ∧
     (∀ k, is_Some (own_props (field defaultConfig "cookies") !! k) →
           is_Some (c !! k))) ∧
  (∀ k, is_Some (defaultConfig !! k) → is_Some (merged !! k)) ∧
  (snd (setConfig defaultConfig E u st) = Ok () →
   config (fst (setConfig defaultConfig E u st)) = JObj merged) ∧
  (∀ k, k ≠ "cookies" →
     field merged k
     = match u !! k with Some x => x | None => field defaultConfig k end) ∧
  (∀ k, k ≠ "cookies" → u !! k ≠ Some JUndefined →
     is_Some (u !! k) ∨ field defaultConfig k ≠ JUndefined →
     field merged k ≠ JUndefined) ∧
  field merged "cookies" ≠ JUndefined ∧
  (∀ k, userCookies u !! k ≠ Some JUndefined →
     is_Some (userCookies u !! k) ∨
     field (own_props (field defaultConfig "cookies")) k ≠ JUndefined →
     prop (field merged "cookies") k ≠ JUndefined).
Proof.
  cbv zeta.
  assert (Hfield : ∀ k, k ≠ "cookies" →
    field (mergeConfig defaultConfig u) k
    = match u !! k with Some x => x | None => field defaultConfig k end).
  { intros k Hk. unfold field. rewrite mergeConfig_lookup by exact Hk.
    by destruct (u !! k). }
  split; [apply mergeConfig_lookup |].
  split; [| split; [| split; [| split; [exact Hfield | split; [| split]]]]].
  - eexists. split; [apply mergeConfig_lookup_cookies |].
    assert (Hc : ∀ k,
      (userCookies u ∪ own_props (field defaultConfig "cookies")) !! k
      = match userCookies u !! k with
        | Some x => Some x
        | None => own_props (field defaultConfig "cookies") !! k
        end).
    { intros k. rewrite lookup_union.
      by destruct (userCookies u !! k),
           (own_props (field defaultConfig "cookies") !! k). }
    split; [exact Hc |].
    intros k Hk. rewrite Hc. by destruct (userCookies u !! k).
  - intros k Hk. destruct (decide (k = "cookies")) as [-> | Hne].
    + by rewrite mergeConfig_lookup_cookies.
    + rewrite mergeConfig_lookup by exact Hne. by destruct (u !! k).
  - unfold setConfig. cbv zeta.
    destruct (validateConfig E (mergeConfig defaultConfig u)) as [v|e];
      [| discriminate].
    destruct (isValid v); cbn; [reflexivity | discriminate].
  - intros k Hk Hu Hsome. rewrite (Hfield k Hk).
    destruct (u !! k) as [x|]; [congruence |].
    destruct Hsome as [[x Hx] | Hd]; [discriminate Hx | exact Hd].
  - by rewrite (field_lookup _ _ _ (mergeConfig_lookup_cookies u)).
  - intros k Hu Hsome.
    rewrite (field_lookup _ _ _ (mergeConfig_lookup_cookies u)).
    cbn [prop]. unfold field in *. rewrite lookup_union.
    destruct (userCookies u !! k) as [x|] eqn:Hx.
    + destruct (own_props (default JUndefined (defaultConfig !! "cookies"))
                  !! k); cbn; congruence.
    + destruct Hsome as [[x Hs] | Hd]; [discriminate Hs |].
      by rewrite (left_id_L None (∪)).
Qed.

Lemma setConfig_config E u st :
  config (fst (setConfig defaultConfig E u st))
  = if accepted defaultConfig E u then JObj (mergeConfig defaultConfig u) else config st.
Proof.
  unfold setConfig, accepted. cbv zeta.
  destruct (validateConfig E (mergeConfig defaultConfig u)) as [v|e];
    [| reflexivity].
  by destruct (isValid v).
Qed.

Lemma setConfig_result E u st :
  snd (setConfig defaultConfig E u st) = Ok () ↔ accepted defaultConfig E u = true.
Proof.
  unfold setConfig, accepted. cbv zeta.
  destruct (validateConfig E (mergeConfig defaultConfig u)) as [v|e];
    [| by split].
  by destruct (isValid v).
Qed.

Lemma setConfigs_config calls st :
  config (setConfigs defaultConfig calls st)
  = match lastAccepted defaultConfig calls with
    | Some m => JObj m
    | None => config st
    end.
Proof.
  revert st. induction calls as [|[E u] rest IH]; intros st; [reflexivity |].
  cbn [setConfigs lastAccepted]. rewrite IH.
  destruct (lastAccepted defaultConfig rest); [reflexivity |].
  rewrite setConfig_config. by destruct (accepted defaultConfig E u).
Qed.

(** C3: after any history of [setConfig] calls from the initial state,
    [getConfig] raises the not-initialized error when no call has
    succeeded, and otherwise returns the merged configuration of the
    latest call that succeeded; a call that fails leaves the stored
    configuration as it was, a call that succeeds stores its merged
    configuration. *)
Theorem C3_store
  (calls : list (Env * gmap string JsVal)) (E : Env)
  (u : gmap string JsVal) (st : State) :
  getConfig (setConfigs defaultConfig calls initialState)
  = match lastAccepted defaultConfig calls with
    | Some m => Ok (JObj m)
    | None => Throw (Error Msg.notInitialized)
    end ∧
  getConfig initialState = Throw (Error Msg.notInitialized) ∧
  (snd (setConfig defaultConfig E u st) = Ok () ↔ accepted defaultConfig E u = true) ∧
  config (fst (setConfig defaultConfig E u st))
  = if accepted defaultConfig E u then JObj (mergeConfig defaultConfig u) else config st.
Proof.
  split; [| split; [reflexivity | split]].
  - unfold getConfig. rewrite setConfigs_config.
    by destruct (lastAccepted defaultConfig calls).
  - apply setConfig_result.
  - apply setConfig_config.
Qed.

Lemma setConfig_debugLog E u st :
  debugLog (fst (setConfig defaultConfig E u st))
  = (debugLog st ++ [(Msg.logLabel, JObj (replacePrivateValues u))])%list.
Proof.
  unfold setConfig. cbv zeta.
  destruct (validateConfig E (mergeConfig defaultConfig u)) as [v|e];
    [| reflexivity].
  by destruct (isValid v).
Qed.


(** On unordered objects: the logged object always carries the
    placeholder list at [cookies.keys], also when the user gave no cookies
    at all; and two user configurations that differ at most in
    [cookies.keys] and in the [privateKey] and [clientEmail] of a
    credential both have are logged as the same unordered object. *)
Lemma log_independent_of_secrets
  (E : Env) (u1 u2 : gmap string JsVal) (st : State)
  (Hsame : sameExceptSecrets u1 u2) :
  prop (field (replacePrivateValues u1) "cookies") "keys"
    = JArr [JStr "hidden"] ∧
  prop (field (replacePrivateValues ∅) "cookies") "keys"
    = JArr [JStr "hidden"] ∧
  replacePrivateValues u1 = replacePrivateValues u2 ∧
  debugLog (fst (setConfig defaultConfig E u1 st))
  = debugLog (fst (setConfig defaultConfig E u2 st)).
Proof.
  split; [apply logged_keys_hidden |].
  split; [apply logged_keys_hidden |].
  pose proof (replacePrivateValues_sameExceptSecrets _ _ Hsame) as Heq.
  split; [exact Heq |].
  by rewrite !setConfig_debugLog, Heq.
Qed.

End Merged.

(** ** The ordered redaction against the unordered one *)

Lemma erase_obj props : erase (OObj props) = JObj (eraseProps props).
Proof. reflexivity. Qed.

Lemma eraseProps_cons k x props :
  eraseProps ((k, x) :: props) = <[k := erase x]> (eraseProps props).
Proof. reflexivity. Qed.

Lemma otruthy_erase v : truthy (erase v) = otruthy v.
Proof. by destruct v. Qed.

Lemma olookup_erase props k :
  eraseProps props !! k = erase <$> olookup props k.
Proof.
  induction props as [|[k' x] rest IH]; [apply lookup_empty |].
  rewrite eraseProps_cons. cbn [olookup].
  destruct (String.eqb k' k) eqn:Hk.
  - apply String.eqb_eq in Hk as ->. by rewrite lookup_insert_eq.
  - apply String.eqb_neq in Hk. by rewrite lookup_insert_ne.
Qed.

Lemma ofield_erase props k :
  erase (ofield props k) = field (eraseProps props) k.
Proof.
  unfold ofield, field. rewrite olookup_erase.
  by destruct (olookup props k).
Qed.

Lemma oprop_erase v k : erase (oprop v k) = prop (erase v) k.
Proof.
  destruct v as [| |b|n|s|f|l|o]; cbn [oprop erase prop]; try reflexivity.
  - by destruct (String.eqb k "name").
  - by destruct (String.eqb k "keys").
  - apply ofield_erase.
Qed.

Lemma ojs_and_erase a b : erase (ojs_and a b) = js_and (erase a) (erase b).
Proof. unfold ojs_and, js_and. rewrite otruthy_erase. by destruct (otruthy a). Qed.

Lemma ochars_erase s : map erase (ochars s) = chars s.
Proof. induction s as [|c r IH]; cbn; [reflexivity | by rewrite IH]. Qed.

Lemma oindexed_erase l : eraseProps (oindexed l) = indexed (map erase l).
Proof.
  unfold eraseProps, oindexed, indexed. f_equal.
  change (map erase l) with (erase <$> l).
  rewrite imap_fmap.
  change (map (λ '(k, x), (k, erase x)) (imap (λ i v, (pretty i, v)) l))
    with ((λ '(k, x), (k, erase x)) <$> imap (λ i v, (pretty i, v)) l).
  by rewrite fmap_imap.
Qed.

Lemma oown_props_erase v : eraseProps (oown_props v) = own_props (erase v).
Proof.
  destruct v as [| |b|n|s|f|l|o]; cbn [oown_props erase own_props];
    try reflexivity.
  - by rewrite oindexed_erase, ochars_erase.
  - apply oindexed_erase.
Qed.

Lemma oset_erase k x props :
  eraseProps (oset k x props) = <[k := erase x]> (eraseProps props).
Proof.
  induction props as [|[k' y] rest IH]; [reflexivity |].
  cbn [oset]. destruct (String.eqb k' k) eqn:Hk.
  - apply String.eqb_eq in Hk as ->.
    by rewrite !eraseProps_cons, insert_insert_eq.
  - apply String.eqb_neq in Hk.
    rewrite !eraseProps_cons, IH. by apply insert_insert_ne.
Qed.

Lemma erased_keys (props : list (string * OVal)) :
  (map (λ '(k, x), (k, erase x)) props).*1 = props.*1.
Proof.
  induction props as [|[k x] rest IH]; [reflexivity |].
  cbn. by rewrite <- IH.
Qed.

Lemma fold_oset_erase src target :
  NoDup src.*1 →
  eraseProps (fold_left (λ acc p, oset p.1 p.2 acc) src target)
  = eraseProps src ∪ eraseProps target.
Proof.
  revert target. induction src as [|[k x] rest IH]; intros target Hnd.
  - change (eraseProps []) with (∅ : gmap string JsVal).
    by rewrite (left_id_L ∅ (∪)).
  - apply NoDup_cons in Hnd as [Hk Hnd]. cbn [fold_left fst snd].
    rewrite (IH _ Hnd), oset_erase, eraseProps_cons.
    assert (Hnone : eraseProps rest !! k = None).
    { apply not_elem_of_list_to_map_1. by rewrite erased_keys. }
    apply map_eq. intros j. rewrite !lookup_union.
    destruct (decide (j = k)) as [-> | Hj].
    + rewrite Hnone, !lookup_insert_eq.
      by destruct (eraseProps target !! k).
    + by rewrite !lookup_insert_ne by congruence.
Qed.

Lemma ospread_erase target src :
  NoDup (oown_props src).*1 →
  eraseProps (ospread target src) = spread (eraseProps target) (erase src).
Proof.
  intros Hnd. unfold ospread, spread.
  by rewrite (fold_oset_erase _ _ Hnd), oown_props_erase.
Qed.

Lemma oown_props_falsy v : otruthy v = false → oown_props v = [].
Proof.
  destruct v as [| |b|n|s|f|l|o]; try reflexivity; try discriminate.
  destruct s; [reflexivity | discriminate].
Qed.

Lemma ojs_and_NoDup a k x :
  NoDup (oown_props (ojs_and a (OObj [(k, x)]))).*1.
Proof.
  unfold ojs_and. destruct (otruthy a) eqn:Ha.
  - cbn. apply NoDup_singleton.
  - rewrite (oown_props_falsy _ Ha). constructor.
Qed.

(** Forgetting the order of the ordered redaction gives the redaction of
    the unordered object. *)
Lemma replacePrivateValuesOrdered_erase u :
  wellKeyed u →
  eraseProps (replacePrivateValuesOrdered u)
  = replacePrivateValues (eraseProps u).
Proof.
  intros (Hu & Hc & Ha & Hcr).
  unfold replacePrivateValuesOrdered, replacePrivateValues. cbv zeta.
  rewrite (ospread_erase _ _ (ojs_and_NoDup _ _ _)).
  rewrite oset_erase, (ospread_erase [] (OObj u)) by exact Hu.
  rewrite ojs_and_erase, !erase_obj, oset_erase.
  rewrite (ospread_erase [] _ Hc), ofield_erase.
  rewrite eraseProps_cons.
  rewrite erase_obj, (ospread_erase _ _ (ojs_and_NoDup _ _ _)).
  rewrite (ospread_erase [] _ Ha), ojs_and_erase, oprop_erase, ofield_erase.
  rewrite erase_obj, eraseProps_cons, erase_obj, !oset_erase.
  rewrite (ospread_erase [] _ Hcr), oprop_erase, ofield_erase.
  reflexivity.
Qed.

(** C10, as stated, fails: two configurations that differ only in whether
    [cookies.keys] is given are logged with their cookie options in a
    different order, the placeholder first where the user gave keys first
    and last where the user gave none. *)
Lemma C10_counterexample : ¬ logged_objects_identical.
Proof.
  intros H.
  assert (Hk1 : wellKeyed cookiesWithKeys).
  { repeat split; apply (bool_decide_unpack _); vm_compute; exact I. }
  assert (Hk2 : wellKeyed cookiesWithoutKeys).
  { repeat split; apply (bool_decide_unpack _); vm_compute; exact I. }
  assert (Hsame :
    sameExceptSecrets (eraseProps cookiesWithKeys)
      (eraseProps cookiesWithoutKeys)).
  { split; [vm_compute; reflexivity |].
    split; [vm_compute; reflexivity |]. left. vm_compute; reflexivity. }
  specialize (H _ _ Hk1 Hk2 Hsame). vm_compute in H. discriminate H.
Qed.

Example logged_cookies_order :
  replacePrivateValuesOrdered cookiesWithKeys
  = [("cookies", OObj [("keys", OArr [OStr "hidden"]); ("name", OStr "MyApp")])]
  ∧
  replacePrivateValuesOrdered cookiesWithoutKeys
  = [("cookies", OObj [("name", OStr "MyApp"); ("keys", OArr [OStr "hidden"])])].
Proof. split; vm_compute; reflexivity. Qed.

Lemma erase_hidden_list x :
  erase x = JArr [JStr "hidden"] → x = OArr [OStr "hidden"].
Proof.
  destruct x as [| |b|n|s|f|l|o]; cbn [erase]; try discriminate.
  intros [= Hl]. destruct l as [|y [|z r]]; try discriminate Hl.
  injection Hl as Hy. destruct y; try discriminate Hy.
  cbn [erase] in Hy. by injection Hy as ->.
Qed.

Lemma ordered_keys_hidden u :
  wellKeyed u →
  oprop (ofield (replacePrivateValuesOrdered u) "cookies") "keys"
  = OArr [OStr "hidden"].
Proof.
  intros Hu. apply erase_hidden_list.
  rewrite oprop_erase, ofield_erase, (replacePrivateValuesOrdered_erase _ Hu).
  apply logged_keys_hidden.
Qed.

(** C10, amended: the logged object always carries the placeholder list
    at [cookies.keys]; and two user configurations that differ at most in
    [cookies.keys] and in the [privateKey] and [clientEmail] of a
    credential both have are logged as objects with the same properties
    and the same values, by [replacePrivateValues] and so by [setConfig].
    The order of the properties is left out: it can differ. *)
Theorem C10_log_equal_up_to_order
  (defaultConfig : gmap string JsVal) (E : Env)
  (u1 u2 : list (string * OVal)) (st : State)
  (Hkeyed1 : wellKeyed u1) (Hkeyed2 : wellKeyed u2)
  (Hsame : sameExceptSecrets (eraseProps u1) (eraseProps u2)) :
  oprop (ofield (replacePrivateValuesOrdered u1) "cookies") "keys"
    = OArr [OStr "hidden"] ∧
  oprop (ofield (replacePrivateValuesOrdered []) "cookies") "keys"
    = OArr [OStr "hidden"] ∧
  eraseProps (replacePrivateValuesOrdered u1)
    = eraseProps (replacePrivateValuesOrdered u2) ∧
  replacePrivateValues (eraseProps u1) = replacePrivateValues (eraseProps u2) ∧
  debugLog (fst (setConfig defaultConfig E (eraseProps u1) st))
  = debugLog (fst (setConfig defaultConfig E (eraseProps u2) st)).
Proof.
  pose proof (replacePrivateValues_sameExceptSecrets _ _ Hsame) as Heq.
  split; [by apply ordered_keys_hidden |].
  split; [reflexivity |].
  split; [by rewrite !replacePrivateValuesOrdered_erase |].
  split; [exact Heq |].
  by rewrite !setConfig_debugLog, Heq.
Qed.

Lemma C10_log_equal_up_to_order_witness :
  eraseProps (replacePrivateValuesOrdered cookiesWithKeys)
  = eraseProps (replacePrivateValuesOrdered cookiesWithoutKeys).
Proof.
  destruct (C10_log_equal_up_to_order exampleDefaultConfig onServer
              cookiesWithKeys cookiesWithoutKeys initialState)
    as (_ & _ & Hsame & _); [.. | exact Hsame].
  - repeat split; apply (bool_decide_unpack _); vm_compute; exact I.
  - repeat split; apply (bool_decide_unpack _); vm_compute; exact I.
  - split; [vm_compute; reflexivity |].
    split; [vm_compute; reflexivity |]. left. vm_compute; reflexivity.
Defined.

(** ** Explicit [undefined] *)

(** C2, as stated, fails: an error handler that the user gives as
    [undefined] replaces the default handler, and the merged field is
    undefined. *)
Lemma C2_counterexample : ¬ merged_fields_all_defined.
Proof.
  intros H.
  apply (H exampleDefaultConfig undefinedHandlerConfig "onVerifyTokenError");
    vm_compute; [discriminate | reflexivity].
Qed.

(** That configuration is accepted and stored with the field undefined. *)
Example explicit_undefined_is_stored :
  let after :=
    setConfig exampleDefaultConfig onServer undefinedHandlerConfig
      initialState in
  snd after = Ok () ∧
  prop (config (fst after)) "onVerifyTokenError" = JUndefined ∧
  field exampleDefaultConfig "onVerifyTokenError" = JFun "defaultOnError".
Proof. cbv zeta. repeat split; vm_compute; reflexivity. Qed.

(** An array in the place of the cookie options has the method [keys] of
    arrays, which counts as defined keys. *)
Example cookies_array_has_keys :
  ∃ v, validateConfig inBrowser {[ "cookies" := JArr [] ]} = Ok v ∧
    occurrences Msg.cookieKeysOnClient (errors v) = 1%nat.
Proof.
  assert (Hwf : wellFormed {[ "cookies" := JArr [] ]} = true)
    by (vm_compute; reflexivity).
  eexists. split; [apply (validateConfig_wellFormed _ _ Hwf) |].
  vm_compute. reflexivity.
Qed.

(** ** Reading [lastAccepted] *)

Lemma lastAccepted_None d calls :
  lastAccepted d calls = None
  ↔ Forall (λ c, accepted d c.1 c.2 = false) calls.
Proof.
  induction calls as [|[E u] rest IH]; cbn [lastAccepted].
  - split; [constructor | reflexivity].
  - rewrite Forall_cons. cbn [fst snd].
    destruct (lastAccepted d rest) as [m|].
    + split; [discriminate | intros [_ H]; by apply IH in H].
    + destruct (accepted d E u).
      * split; [discriminate | intros [H _]; discriminate H].
      * split; [intros _; split; [reflexivity | by apply IH] | reflexivity].
Qed.

Lemma lastAccepted_snoc d calls E u :
  lastAccepted d (calls ++ [(E, u)])
  = if accepted d E u then Some (mergeConfig d u) else lastAccepted d calls.
Proof.
  induction calls as [|[E' u'] rest IH]; cbn [app lastAccepted].
  - by destruct (accepted d E u).
  - rewrite IH. destruct (accepted d E u); [reflexivity |].
    by destruct (lastAccepted d rest).
Qed.

(** ** Outside the declared types *)

(** An emulator host that is set and is not a string stops the validation
    with a TypeError; the hypothesis [hostOk] of the theorems above leaves
    this case out. *)
Example setConfig_host_not_a_string :
  snd (setConfig exampleDefaultConfig onServer
         {[ "firebaseAuthEmulatorHost" := JNum 9099 ]} initialState)
  = Throw (TypeError "startsWith is not a function").
Proof. vm_compute. reflexivity. Qed.

(** The max-age message names the ceiling in milliseconds. *)
Example maxAgeCeiling_names_the_ceiling :
  mentions Msg.maxAgeCeiling "two weeks (1209600000 ms)".
Proof.
  exists ("The " ++ quoted "cookies.maxAge" ++ " setting must be less than "),
    ".".
  vm_compute. reflexivity.
Qed.

(** A history: a rejected call, an accepted one, a rejected one. *)
Example getConfig_after_history :
  let good := serverConfig (7 * day) "k" "e" "p" in
  getConfig (setConfigs exampleDefaultConfig [] initialState)
    = Throw (Error Msg.notInitialized) ∧
  getConfig (setConfigs exampleDefaultConfig [(onServer, ∅)] initialState)
    = Throw (Error Msg.notInitialized) ∧
  getConfig
    (setConfigs exampleDefaultConfig
       [(onServer, ∅); (onServer, good); (inBrowser, good)] initialState)
    = Ok (JObj (mergeConfig exampleDefaultConfig good)).
Proof. cbv zeta. repeat split; vm_compute; reflexivity. Qed.

(** ** The properties on concrete configurations *)

Lemma C5_exclusive_with_tokenChangedHandler_witness :
  ∃ v, validateConfig inBrowser handlerAndLoginConfig = Ok v ∧
    occurrences Msg.loginWithHandler (errors v) = 1%nat ∧
    occurrences Msg.logoutWithHandler (errors v) = 0%nat ∧
    occurrences Msg.onLoginErrWithHandler (errors v) = 0%nat ∧
    occurrences Msg.onLogoutErrWithHandler (errors v) = 0%nat.
Proof.
  apply (C5_exclusive_with_tokenChangedHandler inBrowser
           handlerAndLoginConfig).
  vm_compute; reflexivity.
Defined.

Lemma C6_client_endpoints_required_witness :
  ∃ v, validateConfig inBrowser localhostConfig = Ok v ∧
    occurrences Msg.loginRequired (errors v) = 1%nat ∧
    occurrences Msg.logoutRequired (errors v) = 1%nat.
Proof.
  destruct (C6_client_endpoints_required inBrowser localhostConfig)
    as (v & Hv & Hnone & _); [reflexivity | vm_compute; reflexivity |].
  exists v. split; [exact Hv |].
  apply Hnone; vm_compute; reflexivity.
Defined.

Lemma C4_api_key_required_witness :
  ∃ v,
    validateConfig onServer (mergeConfig exampleDefaultConfig ∅) = Ok v ∧
    isValid v = false ∧
    occurrences Msg.apiKeyRequired (errors v) = 1%nat ∧
    snd (setConfig exampleDefaultConfig onServer ∅ initialState)
      = Throw (Error (Msg.invalidPrefix ++ join " " (errors v))) ∧
    mentions (Msg.invalidPrefix ++ join " " (errors v)) Msg.apiKeyRequired ∧
    config (fst (setConfig exampleDefaultConfig onServer ∅ initialState))
      = config initialState.
Proof.
  apply (C4_api_key_required exampleDefaultConfig onServer ∅ initialState);
    vm_compute; reflexivity.
Defined.

Lemma C1_max_age_ceiling_witness :
  (∃ v,
     validateConfig onServer
       (mergeConfig exampleDefaultConfig (serverConfig (15 * day) "k" "e" "p"))
       = Ok v ∧
     snd (setConfig exampleDefaultConfig onServer
            (serverConfig (15 * day) "k" "e" "p") initialState)
       = Throw (Error (Msg.invalidPrefix ++ join " " (errors v))) ∧
     mentions (Msg.invalidPrefix ++ join " " (errors v)) Msg.maxAgeCeiling) ∧
  (∃ v,
     validateConfig onServer
       (mergeConfig exampleDefaultConfig (serverConfig (14 * day) "k" "e" "p"))
       = Ok v ∧
     occurrences Msg.maxAgeCeiling (errors v) = 0%nat) ∧
  (∃ v,
     validateConfig onServer
       (mergeConfig exampleDefaultConfig (serverConfig 0 "k" "e" "p"))
       = Ok v ∧
     occurrences Msg.maxAgeCeiling (errors v) = 1%nat).
Proof.
  split; [| split].
  - destruct (C1_max_age_ceiling exampleDefaultConfig onServer
                (serverConfig (15 * day) "k" "e" "p") initialState)
      as (_ & Hfifteen & _); [reflexivity | vm_compute; reflexivity |].
    destruct Hfifteen as (v & Hv & Hr & Hm & _); [vm_compute; reflexivity |].
    exists v. split; [exact Hv |]. split; [exact Hr | exact Hm].
  - destruct (C1_max_age_ceiling exampleDefaultConfig onServer
                (serverConfig (14 * day) "k" "e" "p") initialState)
      as (_ & _ & Hfourteen & _); [reflexivity | vm_compute; reflexivity |].
    apply Hfourteen. vm_compute; reflexivity.
  - destruct (C1_max_age_ceiling exampleDefaultConfig onServer
                (serverConfig 0 "k" "e" "p") initialState)
      as (_ & _ & _ & Hfalsy); [reflexivity | vm_compute; reflexivity |].
    apply Hfalsy. vm_compute; reflexivity.
Defined.

Lemma C2_merged_config_witness :
  let u := serverConfig (7 * day) "k" "e" "p" in
  let merged := mergeConfig exampleDefaultConfig u in
  merged !! "debug" = exampleDefaultConfig !! "debug" ∧
  merged !! "loginAPIEndpoint" = Some (JStr "/api/login") ∧
  is_Some (merged !! "onVerifyTokenError") ∧
  config (fst (setConfig exampleDefaultConfig onServer u initialState))
    = JObj merged ∧
  field merged "onVerifyTokenError" ≠ JUndefined ∧
  prop (field merged "cookies") "maxAge" ≠ JUndefined.
Proof.
  cbv zeta.
  destruct (C2_merged_config exampleDefaultConfig onServer
              (serverConfig (7 * day) "k" "e" "p") initialState)
    as (Hfield & _ & Hpresent & Hstored & _ & Hdefined & _ & Hoption).
  split; [by rewrite (Hfield "debug") |].
  split; [by rewrite (Hfield "loginAPIEndpoint") |].
  split; [apply Hpresent; vm_compute; eauto |].
  split; [apply Hstored; vm_compute; reflexivity |].
  split.
  - apply Hdefined; [discriminate | vm_compute; discriminate |].
    right. vm_compute. discriminate.
  - apply Hoption; [vm_compute; discriminate |].
    left. vm_compute. eauto.
Defined.


Example log_independent_of_secrets_example :
  replacePrivateValues (serverConfig (7 * day) "key-one" "a@x" "PRIVATE-ONE")
  = replacePrivateValues (serverConfig (7 * day) "key-two" "b@y" "PRIVATE-TWO").
Proof.
  destruct (log_independent_of_secrets exampleDefaultConfig onServer
              (serverConfig (7 * day) "key-one" "a@x" "PRIVATE-ONE")
              (serverConfig (7 * day) "key-two" "b@y" "PRIVATE-TWO")
              initialState)
    as (_ & _ & Hsame & _); [| exact Hsame].
  split; [vm_compute; reflexivity |].
  split; [vm_compute; reflexivity |].
  right. cbv zeta. repeat split; vm_compute; reflexivity.
Defined.

(** * Further properties of the module *)

(** ** The order of the messages *)

Ltac in_order :=
  cbv [push_if push negb]; cbn [app];
  repeat first
    [ apply sublist_nil_l | apply sublist_skip | apply sublist_cons ].

Lemma checkTokenChangedHandler_order m :
  checkTokenChangedHandler m []
    `sublist_of` [Msg.loginWithHandler; Msg.logoutWithHandler;
                  Msg.onLoginErrWithHandler; Msg.onLogoutErrWithHandler].
Proof.
  unfold checkTokenChangedHandler. cbv zeta.
  generalize (truthy (field m "tokenChangedHandler"))
    (truthy (field m "loginAPIEndpoint")) (truthy (field m "logoutAPIEndpoint"))
    (truthy (field m "onLoginRequestError"))
    (truthy (field m "onLogoutRequestError")).
  intros [] [] [] [] []; in_order.
Qed.

Lemma checkErrorHandlers_order m :
  checkErrorHandlers m []
    `sublist_of` [Msg.mustBeFunction "onVerifyTokenError";
                  Msg.mustBeFunction "onTokenRefreshError";
                  Msg.mustBeFunction "onLoginRequestError";
                  Msg.mustBeFunction "onLogoutRequestError"].
Proof.
  unfold checkErrorHandlers. cbv zeta.
  generalize (notFuncOrUndef (field m "onVerifyTokenError"))
    (notFuncOrUndef (field m "onTokenRefreshError"))
    (notFuncOrUndef (field m "onLoginRequestError"))
    (notFuncOrUndef (field m "onLogoutRequestError")).
  intros [] [] [] []; in_order.
Qed.

Lemma checkClientSide_order m k :
  checkClientSide m k []
    `sublist_of` [Msg.loginRequired; Msg.logoutRequired;
                  Msg.privateKeyOnClient; Msg.cookieKeysOnClient].
Proof.
  unfold checkClientSide. cbv zeta.
  generalize (truthy (field m "tokenChangedHandler"))
    (truthy (field m "loginAPIEndpoint")) (truthy (field m "logoutAPIEndpoint")).
  intros [] [] []; cbn [negb];
    match goal with |- context [push_if ?c Msg.privateKeyOnClient] =>
      generalize c end;
    intros []; destruct k; in_order.
Qed.

Lemma checkEmulatorEnv_order E m :
  checkEmulatorEnv E m []
    `sublist_of` [Msg.emulatorEnvUnset; Msg.emulatorEnvMismatch].
Proof.
  unfold checkEmulatorEnv.
  destruct (truthy _), (FIREBASE_AUTH_EMULATOR_HOST E) as [e|];
    try destruct (negb (truthy (JStr e)));
    try destruct (str_strict_ne _ _); in_order.
Qed.

Lemma allMessages_order E m : allMessages E m `sublist_of` messageOrder E.
Proof.
  unfold allMessages, messageOrder, clientMessageOrder, serverMessageOrder,
    commonMessageOrder, contextMessages.
  change [Msg.loginWithHandler; Msg.logoutWithHandler;
          Msg.onLoginErrWithHandler; Msg.onLogoutErrWithHandler;
          Msg.apiKeyRequired; Msg.emulatorPrefix;
          Msg.mustBeFunction "onVerifyTokenError";
          Msg.mustBeFunction "onTokenRefreshError";
          Msg.mustBeFunction "onLoginRequestError";
          Msg.mustBeFunction "onLogoutRequestError"]
    with ([Msg.loginWithHandler; Msg.logoutWithHandler;
           Msg.onLoginErrWithHandler; Msg.onLogoutErrWithHandler] ++
          [Msg.apiKeyRequired] ++ [Msg.emulatorPrefix] ++
          [Msg.mustBeFunction "onVerifyTokenError";
           Msg.mustBeFunction "onTokenRefreshError";
           Msg.mustBeFunction "onLoginRequestError";
           Msg.mustBeFunction "onLogoutRequestError"])%list.
  destruct (isClientSide E); rewrite <- !app_assoc.
  - repeat apply sublist_app;
      [ apply checkTokenChangedHandler_order
      | unfold checkApiKey; destruct (negb _); in_order
      | destruct (hostHasPrefix _); in_order
      | apply checkErrorHandlers_order
      | apply checkClientSide_order ].
  - change [Msg.cookieNameRequired; Msg.emulatorEnvUnset;
            Msg.emulatorEnvMismatch; Msg.maxAgeCeiling]
      with ([Msg.cookieNameRequired] ++
            [Msg.emulatorEnvUnset; Msg.emulatorEnvMismatch] ++
            [Msg.maxAgeCeiling])%list.
    repeat apply sublist_app;
      [ apply checkTokenChangedHandler_order
      | unfold checkApiKey; destruct (negb _); in_order
      | destruct (hostHasPrefix _); in_order
      | apply checkErrorHandlers_order
      | destruct (negb _); in_order
      | apply checkEmulatorEnv_order
      | unfold checkMaxAge; destruct (_ || _); in_order ].
Qed.

Lemma messageOrder_NoDup E : NoDup (messageOrder E).
Proof.
  unfold messageOrder.
  destruct (isClientSide E); apply (bool_decide_unpack _); vm_compute; exact I.
Qed.

(** X1: the error list of a well-formed configuration is a subsequence of
    the fixed list of messages of its context, the common checks first:
    the messages come in the order of the checks, each at most once, and
    a message of the other context never appears. *)
Theorem X1_errors_in_fixed_order
  (E : Env) (m : gmap string JsVal) (Hwf : wellFormed m = true) :
  ∃ v, validateConfig E m = Ok v ∧
    errors v `sublist_of` messageOrder E ∧
    NoDup (errors v) ∧
    (isClientSide E = true → ∀ msg,
       msg ∈ [Msg.cookieNameRequired; Msg.emulatorEnvUnset;
              Msg.emulatorEnvMismatch; Msg.maxAgeCeiling] →
       msg ∉ errors v) ∧
    (isClientSide E = false → ∀ msg,
       msg ∈ [Msg.loginRequired; Msg.logoutRequired; Msg.privateKeyOnClient;
              Msg.cookieKeysOnClient] →
       msg ∉ errors v).
Proof.
  rewrite (validateConfig_wellFormed _ _ Hwf).
  eexists; split; [reflexivity |]. cbn [errors].
  pose proof (allMessages_order E m) as Hsub.
  split; [exact Hsub |].
  split; [eapply sublist_NoDup; [apply messageOrder_NoDup | exact Hsub] |].
  split; intros Hctx msg Hmsg Hin;
    apply (λ H, elem_of_sublist _ _ _ H Hsub) in Hin;
    unfold messageOrder in Hin; rewrite Hctx in Hin;
    apply list_elem_of_In in Hmsg; apply list_elem_of_In in Hin;
    cbn [clientMessageOrder serverMessageOrder commonMessageOrder app In]
      in Hmsg, Hin;
    repeat (destruct Hmsg as [<- | Hmsg]; [| ]); try (destruct Hmsg);
    repeat (destruct Hin as [Hin | Hin]; [vm_compute in Hin; discriminate Hin |]);
    destruct Hin.
Qed.

(** ** When a configuration is accepted *)









Section Accepted.

Variable defaultConfig : gmap string JsVal.


End Accepted.

(** ** The remaining checks, one by one *)

Lemma notFuncOrUndef_false v :
  notFuncOrUndef v = false ↔ v = JUndefined ∨ ∃ name, v = JFun name.
Proof.
  destruct v as [| |b|n|s|f|l|o]; vm_compute; split;
    try (intros H; discriminate H); try (intros [H | [? H]]; discriminate H);
    eauto.
Qed.

(** X3: each of the four error handlers gets its must-be-a-function
    message, once, exactly when it is neither a function nor undefined
    (so [null], a string or an object is refused and a missing handler is
    not), in the browser and on the server alike. *)
Theorem X3_error_handlers_must_be_functions
  (E : Env) (m : gmap string JsVal) (Hwf : wellFormed m = true) :
  ∃ v, validateConfig E m = Ok v ∧
    (∀ setting,
       setting ∈ ["onVerifyTokenError"; "onTokenRefreshError";
                  "onLoginRequestError"; "onLogoutRequestError"] →
       occurrences (Msg.mustBeFunction setting) (errors v)
       = if notFuncOrUndef (field m setting) then 1%nat else 0%nat) ∧
    (∀ x, notFuncOrUndef x = false ↔ x = JUndefined ∨ ∃ name, x = JFun name).
Proof.
  validateConfig_returns Hwf.
  split; [| apply notFuncOrUndef_false].
  intros setting Hin. apply list_elem_of_In in Hin. cbn [In] in Hin.
  destruct Hin as [<- | [<- | [<- | [<- | []]]]];
    count_in_checks; case_conditions.
Qed.



(** X5: in the browser the private-key message is there, once, exactly
    when [firebaseAdminInitConfig], its [credential] and the credential's
    [privateKey] are all truthy; on the server it never is. *)
Theorem X5_private_key_on_client
  (E : Env) (m : gmap string JsVal) (Hwf : wellFormed m = true) :
  ∃ v, validateConfig E m = Ok v ∧
    let admin := field m "firebaseAdminInitConfig" in
    occurrences Msg.privateKeyOnClient (errors v)
    = if isClientSide E && (truthy admin && truthy (prop admin "credential")
           && truthy (prop (prop admin "credential") "privateKey"))
      then 1%nat else 0%nat.
Proof.
  validateConfig_returns Hwf. count_in_checks.
  destruct (isClientSide E); cbn [andb]; [| case_conditions].
  destruct (truthy (field m "firebaseAdminInitConfig") && _ && _);
    case_conditions.
Qed.

(** X6: on the server the cookie-name message is there, once, exactly
    when the merged [cookies.name] is falsy (missing or empty); in the
    browser it never is. *)
Theorem X6_cookie_name_on_server
  (E : Env) (m : gmap string JsVal) (Hwf : wellFormed m = true) :
  ∃ v, validateConfig E m = Ok v ∧
    occurrences Msg.cookieNameRequired (errors v)
    = if negb (isClientSide E) &&
         negb (truthy (prop (field m "cookies") "name"))
      then 1%nat else 0%nat.
Proof.
  validateConfig_returns Hwf. count_in_checks.
  destruct (isClientSide E), (truthy (prop (field m "cookies") "name"));
    cbn [andb negb]; case_conditions.
Qed.

(** ** What [setConfig] raises and what it logs *)

Section Outcomes.

Variable defaultConfig : gmap string JsVal.

(** X7: when the validation returns an invalid result, [setConfig] raises
    one error whose text is the label followed by all the messages joined
    by a space, so that every message of the error list is in the text:
    the checks are not cut short at the first failure. *)
Theorem X7_every_error_is_reported
  (E : Env) (u : gmap string JsVal) (st : State) (v : ValidationResult)
  (Hv : validateConfig E (mergeConfig defaultConfig u) = Ok v)
  (Hinvalid : isValid v = false) :
  snd (setConfig defaultConfig E u st)
    = Throw (Error (Msg.invalidPrefix ++ join " " (errors v))) ∧
  ∀ msg, msg ∈ errors v →
    mentions (Msg.invalidPrefix ++ join " " (errors v)) msg.
Proof.
  split.
  - unfold setConfig. cbv zeta. by rewrite Hv, Hinvalid.
  - intros msg Hin. by apply mentions_join.
Qed.

(** X8: a merged emulator host that is set and is not a string (a number,
    [true], an array, a function) makes [setConfig] raise a TypeError from
    the [startsWith] call, in the browser and on the server, whatever else
    the configuration holds: no validation message is reported, nothing is
    stored, and the log entry has been written. *)
Theorem X8_host_not_a_string
  (E : Env) (u : gmap string JsVal) (st : State)
  (Hhost :
     hostOk (field (mergeConfig defaultConfig u) "firebaseAuthEmulatorHost")
     = false)
  (Hobj :
     notAnObject
       (field (mergeConfig defaultConfig u) "firebaseAuthEmulatorHost")
     = true) :
  validateConfig E (mergeConfig defaultConfig u)
    = Throw (TypeError "startsWith is not a function") ∧
  snd (setConfig defaultConfig E u st)
    = Throw (TypeError "startsWith is not a function") ∧
  config (fst (setConfig defaultConfig E u st)) = config st ∧
  debugLog (fst (setConfig defaultConfig E u st))
    = (debugLog st ++ [logEntry u])%list.
Proof.
  assert (Hv : validateConfig E (mergeConfig defaultConfig u)
               = Throw (TypeError "startsWith is not a function")).
  { unfold validateConfig, checkEmulatorHost. cbv zeta.
    destruct (field (mergeConfig defaultConfig u) "firebaseAuthEmulatorHost")
      as [| |b|n|s|f|l|o]; try discriminate Hhost; try discriminate Hobj.
    - cbn [hostOk truthy] in Hhost. apply negb_false_iff in Hhost.
      cbn [truthy]. by rewrite Hhost.
    - cbn [hostOk truthy] in Hhost. apply negb_false_iff in Hhost.
      cbn [truthy]. by rewrite Hhost.
    - reflexivity.
    - reflexivity. }
  split; [exact Hv |].
  unfold setConfig. cbv zeta. rewrite Hv. by repeat split.
Qed.

(** X9: over a history of [setConfig] calls the debug log receives one
    entry per call, in the order of the calls, each the redacted
    configuration of its call, whether the call was accepted or not. *)
Theorem X9_one_log_entry_per_call
  (calls : list (Env * gmap string JsVal)) (st : State) :
  debugLog (setConfigs defaultConfig calls st)
  = (debugLog st ++ map (λ c, logEntry c.2) calls)%list.
Proof.
  revert st. induction calls as [|[E u] rest IH]; intros st.
  - cbn. by rewrite app_nil_r.
  - cbn [setConfigs map snd]. rewrite IH, setConfig_debugLog.
    by rewrite <- app_assoc.
Qed.

End Outcomes.

(** ** Merging again, and merging little *)

Section MergeAgain.

Variable defaultConfig : gmap string JsVal.

Lemma userCookies_mergeConfig u :
  userCookies (mergeConfig defaultConfig u)
  = userCookies u ∪ own_props (field defaultConfig "cookies").
Proof.
  unfold userCookies at 1.
  by rewrite (field_lookup _ _ _ (mergeConfig_lookup_cookies defaultConfig u)).
Qed.

Lemma mergeConfig_idempotent u :
  mergeConfig defaultConfig (mergeConfig defaultConfig u)
  = mergeConfig defaultConfig u.
Proof.
  apply map_eq. intros k. destruct (decide (k = "cookies")) as [-> | Hk].
  - rewrite !mergeConfig_lookup_cookies, userCookies_mergeConfig.
    by rewrite <- (assoc_L (∪)), (idemp_L (∪)).
  - rewrite !(mergeConfig_lookup _ _ k) by exact Hk.
    by destruct (u !! k), (defaultConfig !! k).
Qed.

(** X10: merging is idempotent: the merged configuration given back to
    the merge yields itself, so that handing the stored configuration to
    [setConfig] again is accepted exactly when the original was, and
    stores the same object. *)
Theorem X10_merge_is_idempotent
  (E : Env) (u : gmap string JsVal) (st : State) :
  let merged := mergeConfig defaultConfig u in
  mergeConfig defaultConfig merged = merged ∧
  accepted defaultConfig E merged = accepted defaultConfig E u ∧
  config (fst (setConfig defaultConfig E merged st))
  = config (fst (setConfig defaultConfig E u st)).
Proof.
  cbv zeta. split; [apply mergeConfig_idempotent |].
  assert (Ha : accepted defaultConfig E (mergeConfig defaultConfig u)
               = accepted defaultConfig E u)
    by (unfold accepted; by rewrite mergeConfig_idempotent).
  split; [exact Ha |].
  by rewrite !setConfig_config, Ha, mergeConfig_idempotent.
Qed.

(** X11: a user [cookies] field that is falsy ([null], [undefined],
    [false], [0] or the empty string) is merged as if the field were not
    there: the default cookie options are kept whole. *)
Theorem X11_falsy_cookies_are_ignored
  (u : gmap string JsVal)
  (Hfalsy : truthy (field u "cookies") = false) :
  mergeConfig defaultConfig u = mergeConfig defaultConfig (delete "cookies" u) ∧
  mergeConfig defaultConfig u !! "cookies"
  = Some (JObj (own_props (field defaultConfig "cookies"))).
Proof.
  split.
  - unfold mergeConfig, js_or. cbv zeta. rewrite Hfalsy.
    unfold field at 3. rewrite lookup_delete_eq. cbn [default truthy].
    by rewrite delete_delete_eq.
  - rewrite mergeConfig_lookup_cookies. unfold userCookies. rewrite Hfalsy.
    by rewrite (left_id_L ∅ (∪)).
Qed.

(** X12: when the defaults carry their cookie options as an object, the
    empty user configuration is merged to exactly the defaults. *)
Theorem X12_empty_user_config_gives_defaults
  (c : gmap string JsVal)
  (Hcookies : defaultConfig !! "cookies" = Some (JObj c)) :
  mergeConfig defaultConfig ∅ = defaultConfig.
Proof.
  apply map_eq. intros k. destruct (decide (k = "cookies")) as [-> | Hk].
  - rewrite mergeConfig_lookup_cookies, Hcookies.
    rewrite (field_lookup _ _ _ Hcookies).
    change (userCookies ∅) with (∅ : gmap string JsVal).
    by rewrite (left_id_L ∅ (∪)).
  - rewrite mergeConfig_lookup by exact Hk. by rewrite lookup_empty.
Qed.

End MergeAgain.

(** ** What the redaction leaves alone *)

(** X13: the redacted object differs from the user's only where the
    secrets are: every other top-level field is the user's; [cookies] is
    an object with the user's cookie options under every key but [keys];
    a falsy [firebaseAdminInitConfig] is left as it is; a truthy one keeps
    every property but [credential], and a truthy credential keeps every
    property but [privateKey] and [clientEmail]. *)
Theorem X13_redaction_touches_only_secrets (u : gmap string JsVal) :
  let logged := replacePrivateValues u in
  let admin := field u "firebaseAdminInitConfig" in
  let credential := prop admin "credential" in
  (∀ k, k ≠ "cookies" → k ≠ "firebaseAdminInitConfig" →
        logged !! k = u !! k) ∧
  (∃ c, logged !! "cookies" = Some (JObj c) ∧
        ∀ k, k ≠ "keys" → c !! k = own_props (field u "cookies") !! k) ∧
  (truthy admin = false →
   logged !! "firebaseAdminInitConfig" = u !! "firebaseAdminInitConfig") ∧
  (truthy admin = true →
   ∃ a, logged !! "firebaseAdminInitConfig" = Some (JObj a) ∧
     (∀ k, k ≠ "credential" → a !! k = own_props admin !! k) ∧
     (truthy credential = false →
      a !! "credential" = own_props admin !! "credential") ∧
     (truthy credential = true →
      ∃ c, a !! "credential" = Some (JObj c) ∧
        ∀ k, k ≠ "privateKey" → k ≠ "clientEmail" →
             c !! k = own_props credential !! k)).
Proof.
  cbv zeta. rewrite replacePrivateValues_unfold.
  split; [| split; [| split]].
  - intros k Hc Ha. rewrite lookup_union, redactedAdmin_lookup_ne by exact Ha.
    rewrite lookup_insert_ne by congruence. by destruct (u !! k).
  - eexists. split.
    + rewrite lookup_union, redactedAdmin_lookup_ne by done.
      by rewrite lookup_insert_eq.
    + intros k Hk. unfold redactedCookies.
      by rewrite lookup_insert_ne by congruence.
  - intros Ha. unfold redactedAdmin, js_and. rewrite Ha.
    rewrite (own_props_falsy _ Ha), (left_id_L ∅ (∪)).
    by rewrite lookup_insert_ne.
  - intros Ha. unfold redactedAdmin, js_and, spread. rewrite Ha.
    cbn [own_props]. rewrite (right_id_L ∅ (∪)).
    eexists. split; [apply lookup_union_Some_l, lookup_singleton_eq |].
    destruct (truthy (prop (field u "firebaseAdminInitConfig") "credential"))
      eqn:Hc.
    + split; [| split; [discriminate |]].
      * intros k Hk. cbn [own_props].
        by rewrite lookup_union, lookup_singleton_ne, (left_id_L None (∪)).
      * intros _. eexists. split.
        -- cbn [own_props]. apply lookup_union_Some_l, lookup_singleton_eq.
        -- intros k Hp He. unfold redactedCredential.
           by rewrite !lookup_insert_ne by congruence.
    + rewrite (own_props_falsy _ Hc), (left_id_L ∅ (∪)).
      split; [done |]. split; [done | discriminate].
Qed.

(** The keys of an array or a string taken as an object are numerals. *)
Lemma pretty_N_char_digit x : isDigit (pretty_N_char x) = true.
Proof. unfold pretty_N_char. by repeat case_match. Qed.

Lemma pretty_N_go_digit x s :
  (0 < x)%N → startsWithDigit (pretty_N_go x s) = true.
Proof.
  revert s. induction (N.lt_wf_0 x) as [x _ IH]. intros s Hx.
  rewrite pretty_N_go_step by exact Hx.
  destruct (decide (0 < x `div` 10)%N) as [Hd | Hd].
  - apply IH; [by apply N.div_lt | exact Hd].
  - assert (Hz : (x `div` 10 = 0)%N).
    { apply N.nlt_ge in Hd. by apply N.le_0_r in Hd. }
    rewrite Hz, pretty_N_go_0.
    apply pretty_N_char_digit.
Qed.

Lemma pretty_nat_digit (i : nat) : startsWithDigit (pretty i) = true.
Proof.
  unfold pretty, pretty_nat, pretty, pretty_N.
  destruct (decide (N.of_nat i = 0)%N); [reflexivity |].
  apply pretty_N_go_digit. lia.
Qed.

Lemma indexed_lookup_not_numeral l k :
  startsWithDigit k = false → indexed l !! k = None.
Proof.
  intros Hk. unfold indexed. apply not_elem_of_list_to_map_1.
  intros Hin. apply list_elem_of_fmap in Hin as ([k' v] & -> & Hin).
  apply elem_of_lookup_imap in Hin as (i & x & Heq & _).
  injection Heq as -> _. cbn [fst] in Hk.
  by rewrite pretty_nat_digit in Hk.
Qed.

Lemma own_props_credential_falsy a :
  truthy (prop a "credential") = false →
  truthy (field (own_props a) "credential") = false.
Proof.
  destruct a as [| |b|n|s|f|l|o]; cbn [own_props prop]; try done.
  - intros _. unfold field. by rewrite indexed_lookup_not_numeral.
  - intros _. unfold field. by rewrite indexed_lookup_not_numeral.
Qed.

Lemma redactedCookies_again c :
  redactedCookies (JObj (redactedCookies c)) = redactedCookies c.
Proof. unfold redactedCookies. cbn [own_props]. apply insert_insert_eq. Qed.

Lemma redactedCredential_again c :
  redactedCredential (JObj (redactedCredential c)) = redactedCredential c.
Proof.
  unfold redactedCredential. cbn [own_props]. apply map_eq. intros k.
  destruct (decide (k = "clientEmail")) as [-> | He];
    [by rewrite !lookup_insert_eq |].
  rewrite !(lookup_insert_ne _ "clientEmail") by congruence.
  destruct (decide (k = "privateKey")) as [-> | Hp];
    [by rewrite !lookup_insert_eq |].
  by rewrite !lookup_insert_ne by congruence.
Qed.

Lemma redactedAdmin_again a A :
  redactedAdmin a !! "firebaseAdminInitConfig" = Some (JObj A) →
  redactedAdmin (JObj A) = redactedAdmin a.
Proof.
  unfold redactedAdmin at 1, js_and, spread.
  destruct (truthy a) eqn:Ha;
    [| by rewrite (own_props_falsy _ Ha), lookup_empty].
  cbn [own_props]. rewrite lookup_singleton_eq, (right_id_L ∅ (∪)).
  intros [= <-].
  destruct (truthy (prop a "credential")) eqn:Hc.
  - cbn [own_props].
    assert (Hcred :
      prop (JObj ({[ "credential" :=
                       JObj (redactedCredential (prop a "credential")) ]}
                  ∪ own_props a)) "credential"
      = JObj (redactedCredential (prop a "credential"))).
    { cbn [prop]. apply field_lookup, lookup_union_Some_l, lookup_singleton_eq. }
    rewrite (redactedAdmin_credential
               (JObj ({[ "credential" :=
                           JObj (redactedCredential (prop a "credential")) ]}
                      ∪ own_props a)));
      [| reflexivity | by rewrite Hcred].
    rewrite Hcred, redactedCredential_again, (redactedAdmin_credential _ Ha Hc).
    cbn [own_props]. by rewrite (assoc_L (∪)), (idemp_L (∪)).
  - rewrite (own_props_falsy _ Hc), (left_id_L ∅ (∪)).
    pose proof (own_props_credential_falsy _ Hc) as Hc'.
    unfold redactedAdmin, js_and, spread. rewrite Ha.
    cbn [truthy prop own_props]. rewrite Hc', Hc.
    by rewrite (own_props_falsy _ Hc), (own_props_falsy _ Hc'),
      !(right_id_L ∅ (∪)), !(left_id_L ∅ (∪)).
Qed.

(** X14: redacting is idempotent: the redacted object, redacted again, is
    itself, whatever the user configuration holds. *)
Theorem X14_redaction_is_idempotent (u : gmap string JsVal) :
  replacePrivateValues (replacePrivateValues u) = replacePrivateValues u.
Proof.
  rewrite (replacePrivateValues_unfold (replacePrivateValues u)).
  rewrite (field_lookup _ _ _ (replacePrivateValues_cookies u)).
  rewrite redactedCookies_again.
  rewrite (replacePrivateValues_unfold u).
  set (rc := JObj (redactedCookies (field u "cookies"))).
  set (a := field u "firebaseAdminInitConfig").
  assert (Hadmin :
    redactedAdmin (field (redactedAdmin a ∪ <["cookies" := rc]> u)
                     "firebaseAdminInitConfig")
    = redactedAdmin a).
  { destruct (redactedAdmin a !! "firebaseAdminInitConfig") as [x|] eqn:Hx.
    - rewrite (field_lookup _ _ x) by by apply lookup_union_Some_l.
      unfold redactedAdmin at 1, js_and in Hx.
      destruct (truthy a) eqn:Ha.
      + cbn [own_props] in Hx. rewrite lookup_singleton_eq in Hx.
        injection Hx as <-. apply redactedAdmin_again.
        unfold redactedAdmin, js_and. rewrite Ha. cbn [own_props].
        by rewrite lookup_singleton_eq.
      + by rewrite (own_props_falsy _ Ha), lookup_empty in Hx.
    - assert (Hf : field (redactedAdmin a ∪ <["cookies" := rc]> u)
                     "firebaseAdminInitConfig" = a).
      { unfold field. rewrite lookup_union, Hx, (left_id_L None (∪)).
        by rewrite lookup_insert_ne. }
      by rewrite Hf. }
  rewrite Hadmin. apply map_eq. intros k. rewrite !lookup_union.
  destruct (redactedAdmin a !! k) as [x|] eqn:Hx.
  { by destruct (<["cookies" := rc]> u !! k),
         (<["cookies" := rc]> (redactedAdmin a ∪ <["cookies" := rc]> u) !! k). }
  rewrite !(left_id_L None (∪)).
  destruct (decide (k = "cookies")) as [-> | Hk].
  - by rewrite !lookup_insert_eq.
  - rewrite !lookup_insert_ne by congruence.
    rewrite lookup_union, Hx, (left_id_L None (∪)).
    by rewrite lookup_insert_ne by congruence.
Qed.

(** ** The further properties on concrete configurations *)

Lemma X1_errors_in_fixed_order_witness :
  ∃ v, validateConfig inBrowser handlerAndLoginConfig = Ok v ∧
    errors v `sublist_of` clientMessageOrder ∧
    NoDup (errors v) ∧
    Msg.maxAgeCeiling ∉ errors v.
Proof.
  destruct (X1_errors_in_fixed_order inBrowser handlerAndLoginConfig)
    as (v & Hv & Hsub & Hnodup & Hclient & _); [vm_compute; reflexivity |].
  exists v. split; [exact Hv |]. split; [exact Hsub |].
  split; [exact Hnodup |].
  apply Hclient; [reflexivity |]. do 3 right. left.
Defined.


Lemma X3_error_handlers_must_be_functions_witness :
  ∃ v, validateConfig onServer
         {[ "onVerifyTokenError" := JNull; "cookies" := JObj ∅ ]} = Ok v ∧
    occurrences (Msg.mustBeFunction "onVerifyTokenError") (errors v) = 1%nat ∧
    occurrences (Msg.mustBeFunction "onTokenRefreshError") (errors v) = 0%nat.
Proof.
  destruct (X3_error_handlers_must_be_functions onServer
              {[ "onVerifyTokenError" := JNull; "cookies" := JObj ∅ ]})
    as (v & Hv & Hcount & _); [vm_compute; reflexivity |].
  exists v. split; [exact Hv |]. split.
  - rewrite Hcount; [vm_compute; reflexivity | left].
  - rewrite Hcount; [vm_compute; reflexivity | right; left].
Defined.


Lemma X5_private_key_on_client_witness :
  ∃ v, validateConfig inBrowser
         {[ "firebaseAdminInitConfig" := adminConfig "e" "p";
            "cookies" := JObj ∅ ]} = Ok v ∧
    occurrences Msg.privateKeyOnClient (errors v) = 1%nat.
Proof.
  destruct (X5_private_key_on_client inBrowser
              {[ "firebaseAdminInitConfig" := adminConfig "e" "p";
                 "cookies" := JObj ∅ ]})
    as (v & Hv & Hcount); [vm_compute; reflexivity |].
  exists v. split; [exact Hv |].
  cbv zeta in Hcount. rewrite Hcount. vm_compute; reflexivity.
Defined.

Lemma X6_cookie_name_on_server_witness :
  ∃ v, validateConfig onServer localhostConfig = Ok v ∧
    occurrences Msg.cookieNameRequired (errors v) = 1%nat.
Proof.
  destruct (X6_cookie_name_on_server onServer localhostConfig)
    as (v & Hv & Hcount); [vm_compute; reflexivity |].
  exists v. split; [exact Hv |].
  rewrite Hcount. vm_compute; reflexivity.
Defined.

Lemma X7_every_error_is_reported_witness :
  ∃ text,
    snd (setConfig exampleDefaultConfig onServer ∅ initialState)
      = Throw (Error text) ∧
    mentions text Msg.apiKeyRequired ∧
    mentions text Msg.cookieNameRequired.
Proof.
  assert (Hwf : wellFormed (mergeConfig exampleDefaultConfig ∅) = true)
    by (vm_compute; reflexivity).
  destruct (X7_every_error_is_reported exampleDefaultConfig onServer ∅
              initialState _ (validateConfig_wellFormed onServer _ Hwf))
    as [Hthrow Hall]; [vm_compute; reflexivity |].
  eexists. split; [exact Hthrow |].
  split; apply Hall; apply (bool_decide_unpack _); vm_compute; exact I.
Defined.

Lemma X8_host_not_a_string_witness :
  snd (setConfig exampleDefaultConfig inBrowser
         {[ "firebaseAuthEmulatorHost" := JNum 9099 ]} initialState)
    = Throw (TypeError "startsWith is not a function") ∧
  config (fst (setConfig exampleDefaultConfig inBrowser
                 {[ "firebaseAuthEmulatorHost" := JNum 9099 ]} initialState))
    = JUndefined.
Proof.
  destruct (X8_host_not_a_string exampleDefaultConfig inBrowser
              {[ "firebaseAuthEmulatorHost" := JNum 9099 ]} initialState)
    as (_ & Hthrow & Hconfig & _); [vm_compute; reflexivity .. |].
  split; [exact Hthrow | exact Hconfig].
Defined.

Lemma X11_falsy_cookies_are_ignored_witness :
  mergeConfig exampleDefaultConfig {[ "cookies" := JNull ]} !! "cookies"
  = Some (JObj (own_props (field exampleDefaultConfig "cookies"))).
Proof.
  apply (X11_falsy_cookies_are_ignored exampleDefaultConfig
           {[ "cookies" := JNull ]}).
  vm_compute; reflexivity.
Defined.

Lemma X12_empty_user_config_gives_defaults_witness :
  mergeConfig exampleDefaultConfig ∅ = exampleDefaultConfig.
Proof.
  eapply (X12_empty_user_config_gives_defaults exampleDefaultConfig).
  reflexivity.
Defined.

Lemma X13_redaction_touches_only_secrets_witness :
  let u := serverConfig (7 * day) "k" "e" "p" in
  replacePrivateValues u !! "loginAPIEndpoint" = Some (JStr "/api/login") ∧
  ∃ a, replacePrivateValues u !! "firebaseAdminInitConfig" = Some (JObj a) ∧
    a !! "databaseURL" = Some (JStr "https://my-project.firebaseio.com").
Proof.
  cbv zeta.
  destruct (X13_redaction_touches_only_secrets
              (serverConfig (7 * day) "k" "e" "p"))
    as (Hother & _ & _ & Hadmin).
  split.
  - rewrite Hother; [vm_compute; reflexivity | discriminate | discriminate].
  - destruct Hadmin as (a & Ha & Hrest & _); [vm_compute; reflexivity |].
    exists a. split; [exact Ha |].
    rewrite Hrest; [vm_compute; reflexivity | discriminate].
Defined.
